(** * get_pi_data: extraction of time series from a PI historian

    A shallow embedding of [get_pi_data.py] and the properties of its
    duration parser, window resolution and packet loop.

    Conventions of the model.
    - A [datetime] is the number of microseconds that Python's own
      [datetime.__add__] computes with: [toordinal()] days plus the time of
      day.  A [timedelta] is a number of microseconds.  Both are integers
      of [Z].  The constructor of a timedelta checks the range of the days
      as Python does; the range check of the arithmetic on datetimes
      (years 1 to 9999) is not part of the model.
    - Sample values are IEEE 754 binary64 numbers, as Python floats are.
    - The file system maps a file name to the lines of the file.  Every
      line written by the program has a positive number of bytes, so a
      file has zero bytes exactly when it has no line.
    - The historian connection is a function from the query to its
      answer: an exception of the provider or a record set.  The
      definitions with the suffix [_traced] are the same code with the
      trace of the calls of [connection.Execute] threaded through it.
    - A loop that may run forever takes a fuel argument: the bound on the
      number of iterations; [None] means that the bound was reached. *)

From Stdlib Require Import ZArith Lia Bool String Ascii List Floats.
From stdpp Require Import base option list gmap strings.

Local Open Scope Z_scope.

(* ===================================================================== *)
(** ** Exceptions *)
(* ===================================================================== *)

Inductive exn : Type :=
| ProviderError        (* raised by the connection while it executes a query *)
| ZeroDivisionError
| OverflowError
| UnboundLocalError
| FileNotFoundError
| ValueError
| TypeError
| SystemExit.

Inductive result (A : Type) : Type :=
| Ok (a : A)
| Raise (e : exn).

Arguments Ok {A} a.
Arguments Raise {A} e.

(* ===================================================================== *)
(** ** datetime and timedelta *)
(* ===================================================================== *)

Definition datetime : Type := Z.
Definition timedelta : Type := Z.

(** The microseconds of [timedelta(days=.., hours=.., minutes=..,
    seconds=..)]. *)
Definition timedelta_of (days hours minutes seconds : Z) : timedelta :=
  (((days * 24 + hours) * 60 + minutes) * 60 + seconds) * 1000000.

(** The constructor of a timedelta, for its microseconds: the days of the
    normalised duration must have a magnitude of at most 999999999. *)
Definition MAX_DELTA_DAYS : Z := 999999999.

Definition timedelta_new (microseconds : Z) : result timedelta :=
  let days := microseconds / 86400000000 in
  if (- MAX_DELTA_DAYS <=? days) && (days <=? MAX_DELTA_DAYS)
  then Ok microseconds
  else Raise OverflowError.

(** [timedelta] applied to the keyword arguments that [parse_time]
    collects; an absent keyword has the default 0. *)
Definition timedelta_kwargs (kw : gmap string Z) : result timedelta :=
  timedelta_new
    (timedelta_of (default 0 (kw !! "days"%string))
                  (default 0 (kw !! "hours"%string))
                  (default 0 (kw !! "minutes"%string))
                  (default 0 (kw !! "seconds"%string))).

(** [datetime._divide_and_round]: division rounded to the nearest integer,
    ties to even. *)
Definition divide_and_round (a b : Z) : Z :=
  let q := a / b in
  let r := (a mod b) * 2 in
  let greater_than_half := if 0 <? b then b <? r else r <? b in
  if greater_than_half || ((r =? b) && (q mod 2 =? 1)) then q + 1 else q.

(** [delta / n] for a timedelta and an int. *)
Definition timedelta_truediv (delta : timedelta) (n : Z) : timedelta :=
  divide_and_round delta n.

Definition is_leap (year : Z) : bool :=
  (year mod 4 =? 0) && (negb (year mod 100 =? 0) || (year mod 400 =? 0)).

Definition days_before_year (year : Z) : Z :=
  let y := year - 1 in y * 365 + y / 4 - y / 100 + y / 400.

Definition DAYS_IN_MONTH : list Z :=
  [31; 28; 31; 30; 31; 30; 31; 31; 30; 31; 30; 31].

Definition DAYS_BEFORE_MONTH : list Z :=
  [0; 31; 59; 90; 120; 151; 181; 212; 243; 273; 304; 334].

Definition days_in_month (leap : bool) (month : Z) : Z :=
  if (month =? 2) && leap then 29
  else nth (Z.to_nat (month - 1)) DAYS_IN_MONTH 0.

Definition days_before_month (leap : bool) (month : Z) : Z :=
  nth (Z.to_nat (month - 1)) DAYS_BEFORE_MONTH 0
  + (if (2 <? month) && leap then 1 else 0).

Definition ymd2ord (year month day : Z) : Z :=
  days_before_year year + days_before_month (is_leap year) month + day.

(** [datetime._ord2ymd] *)
Definition ord2ymd (ordinal : Z) : Z * Z * Z :=
  let n := ordinal - 1 in
  let n400 := n / 146097 in
  let n := n mod 146097 in
  let n100 := n / 36524 in
  let n := n mod 36524 in
  let n4 := n / 1461 in
  let n := n mod 1461 in
  let n1 := n / 365 in
  let n := n mod 365 in
  let year := n400 * 400 + 1 + n100 * 100 + n4 * 4 + n1 in
  if (n1 =? 4) || (n100 =? 4) then (year - 1, 12, 31)
  else
    let leapyear := (n1 =? 3) && (negb (n4 =? 24) || (n100 =? 3)) in
    let month := Z.shiftr (n + 50) 5 in
    let preceding := days_before_month leapyear month in
    if n <? preceding
    then (year, month - 1,
          n - (preceding - days_in_month leapyear (month - 1)) + 1)
    else (year, month, n - preceding + 1).

(** [datetime(year, month, day, hour, minute, second, microsecond)] *)
Definition datetime_of (year month day hour minute second microsecond : Z)
  : datetime :=
  (((ymd2ord year month day * 24 + hour) * 60 + minute) * 60 + second)
  * 1000000 + microsecond.

Definition digit_char (n : Z) : ascii :=
  ascii_of_nat (Z.to_nat (48 + n mod 10)).

Definition pad2 (n : Z) : string :=
  String (digit_char (n / 10)) (String (digit_char n) EmptyString).

Definition pad4 (n : Z) : string :=
  String (digit_char (n / 1000)) (String (digit_char (n / 100)) (pad2 n)).

(** The text of a whole number of seconds in the format
    ['%d.%m.%Y  %H:%M:%S']. *)
Definition format_seconds (secs : Z) : string :=
  let '(y, m, d) := ord2ymd (secs / 86400) in
  let rem := secs mod 86400 in
  (pad2 d +:+ "." +:+ pad2 m +:+ "." +:+ pad4 y +:+ "  "
   +:+ pad2 (rem / 3600) +:+ ":" +:+ pad2 (rem mod 3600 / 60) +:+ ":"
   +:+ pad2 (rem mod 60))%string.

(** [d.strftime('%d.%m.%Y  %H:%M:%S')]: the format has no field for the
    microseconds, which are dropped. *)
Definition strftime (d : datetime) : string :=
  format_seconds (d / 1000000).

(** The instant that the text of [strftime d] denotes. *)
Definition trunc_sec (d : datetime) : datetime := d / 1000000 * 1000000.

(* ===================================================================== *)
(** ** The duration parser *)
(* ===================================================================== *)

(** [\d] on the characters of the model, which are bytes: the digits 0
    to 9. *)
Definition is_digit (c : ascii) : bool :=
  let n := nat_of_ascii c in (48 <=? n)%nat && (n <=? 57)%nat.

Definition digit_value (c : ascii) : Z := Z.of_nat (nat_of_ascii c) - 48.

Fixpoint int_digits (s : string) (acc : Z) : option Z :=
  match s with
  | EmptyString => Some acc
  | String c s' =>
      if is_digit c then int_digits s' (acc * 10 + digit_value c) else None
  end.

(** The longest numeral that [int] converts, the default of
    [sys.get_int_max_str_digits()] (interpreters since September 2022). *)
Definition MAX_STR_DIGITS : Z := 4300.

(** [int(param)]: [None] stands for the ValueError that Python raises on
    the empty string, on a string with a character that is no digit and on
    a numeral with more digits than the limit. *)
Definition int (s : string) : option Z :=
  match s with
  | EmptyString => None
  | _ =>
      if MAX_STR_DIGITS <? Z.of_nat (String.length s) then None
      else int_digits s 0
  end.

(** A literal of the pattern: the text that is left after it, if the
    subject starts with it. *)
Fixpoint match_literal (lit s : string) : option string :=
  match lit with
  | EmptyString => Some s
  | String a lit' =>
      match s with
      | String b s' => if Ascii.eqb a b then match_literal lit' s' else None
      | EmptyString => None
      end
  end.

Section Matcher.
(** A backtracking matcher in continuation-passing style, as the [re]
    module runs the pattern: a continuation stands for the rest of the
    pattern, it gets the text that is left and the captures made so far,
    and [None] is a failure that makes the matcher try its next
    alternative. *)
Context {R : Type}.

(** [\d+?] followed by [k]: the lazy quantifier tries the rest of the
    pattern after every digit, the shortest run first. [acc] is the run
    of digits taken so far. *)
Fixpoint lazy_digits (s acc : string) (k : string -> string -> option R)
  : option R :=
  match s with
  | String c s' =>
      if is_digit c then
        let acc' := (acc +:+ String c EmptyString)%string in
        match k acc' s' with
        | Some r => Some r
        | None => lazy_digits s' acc' k
        end
      else None
  | EmptyString => None
  end.

(** [((?P<name>\d+?)unit)?] followed by [k]: the greedy option tries the
    group first and, when the group or the rest of the pattern after it
    fails, goes on without the group. *)
Definition optional_group (name unit : string) (s : string)
    (caps : gmap string string)
    (k : string -> gmap string string -> option R) : option R :=
  match lazy_digits s EmptyString
          (fun digits rest =>
             match match_literal unit rest with
             | Some rest' => k rest' (<[name := digits]> caps)
             | None => None
             end) with
  | Some r => Some r
  | None => k s caps
  end.
End Matcher.

(** [regex.match(time_str)] for the pattern of [parse_time]: the match is
    anchored at the start of the string only, so the continuation of the
    last group accepts whatever text is left. *)
Definition regex_match (time_str : string) : option (gmap string string) :=
  optional_group "days" "d" time_str ∅ (fun s1 c1 =>
  optional_group "hours" "hr" s1 c1 (fun s2 c2 =>
  optional_group "minutes" "m" s2 c2 (fun s3 c3 =>
  optional_group "seconds" "s" s3 c3 (fun _ c4 => Some c4)))).

(** [parts.groupdict()]: the named groups in the order of the pattern, a
    group that took no part in the match has the value [None]. *)
Definition groupdict (caps : gmap string string)
  : list (string * option string) :=
  map (fun name => (name, caps !! name))
      ["days"; "hours"; "minutes"; "seconds"]%string.

(** The loop over [parts.items()] that fills [time_params]. *)
Fixpoint collect_time_params (items : list (string * option string))
    (time_params : gmap string Z) : result (gmap string Z) :=
  match items with
  | [] => Ok time_params
  | (name, param) :: items' =>
      match param with
      | Some (String c p) =>
          match int (String c p) with
          | Some n => collect_time_params items' (<[name := n]> time_params)
          | None => Raise ValueError
          end
      | _ => collect_time_params items' time_params
      end
  end.

(** [parse_time(time_str)]: [Ok None] is the bare [return] taken when the
    pattern does not match. *)
Definition parse_time (time_str : string) : result (option timedelta) :=
  match regex_match time_str with
  | None => Ok None
  | Some caps =>
      match collect_time_params (groupdict caps) ∅ with
      | Ok time_params =>
          match timedelta_kwargs time_params with
          | Ok td => Ok (Some td)
          | Raise e => Raise e
          end
      | Raise e => Raise e
      end
  end.

(* ===================================================================== *)
(** ** The historian and the file system *)
(* ===================================================================== *)

(** A row of a record set: tag, formatted time, value. *)
Record Row : Type := { r_tag : string; r_time : string; r_value : float }.

(** An ADODB record set as [export] reads it: the two end markers and the
    rows of [zip( *rs.GetRows())]. *)
Record Recordset : Type := { BOF : bool; EOF : bool; GetRows : list Row }.

(** The record set that the provider hands back for the rows of an
    answer: both markers are set exactly when there is no row. *)
Definition recordset_of (rows : list Row) : Recordset :=
  match rows with
  | [] => {| BOF := true; EOF := true; GetRows := [] |}
  | _ => {| BOF := false; EOF := false; GetRows := rows |}
  end.

(** The query of [adodb_query]: the rows of [q_tag] with
    [time >= q_start and time <= q_end], both ends included. *)
Record Query : Type := { q_tag : string; q_start : string; q_end : string }.

Definition Connection : Type := Query -> result Recordset.

(** [adodb_query(connection, tag, startTime, endTime)] *)
Definition adodb_query (connection : Connection)
    (tag startTime endTime : string) : result Recordset :=
  connection {| q_tag := tag; q_start := startTime; q_end := endTime |}.

(** A line ['%s  %s  %.5e\n'] of an output file. *)
Record Line : Type := { l_tag : string; l_time : string; l_value : float }.

Abbreviation FS := (gmap string (list Line)).

Inductive mode : Type := mode_w | mode_a.

(** [open(filename, action)]: mode w makes the file empty, mode a keeps
    what an existing file holds; both create a missing file. *)
Definition open_file (fs : FS) (filename : string) (action : mode) : FS :=
  match action with
  | mode_w => <[filename := []]> fs
  | mode_a =>
      match fs !! filename with
      | Some _ => fs
      | None => <[filename := []]> fs
      end
  end.

(** [f.write(line)] on the open file. *)
Definition write_line (fs : FS) (filename : string) (line : Line) : FS :=
  <[filename := default [] (fs !! filename) ++ [line]]> fs.

(** [os.path.isfile(filename)] *)
Definition isfile (fs : FS) (filename : string) : bool :=
  match fs !! filename with Some _ => true | None => false end.

Definition line_of_row (item : Row) : Line :=
  {| l_tag := r_tag item; l_time := r_time item; l_value := r_value item |}.

(** [export(rs, filename, action)]: the new file system and how the call
    ends. *)
Definition export (rs : Recordset) (filename : string) (action : mode)
    (fs : FS) : FS * result unit :=
  let fs := open_file fs filename action in
  if negb (BOF rs || EOF rs) then
    (fold_left (fun fs item => write_line fs filename (line_of_row item))
               (GetRows rs) fs, Ok tt)
  else (fs, Ok tt).

(** The loop of [export_average] over the rows: [tagname] is unbound
    before the first row; [ave] starts as the int 0, and [0 + v] is the
    float sum [0.0 + v]. *)
Definition average_step (st : option string * float * Z) (item : Row)
  : option string * float * Z :=
  let '(_, ave, num) := st in
  (Some (r_tag item), PrimFloat.add ave (r_value item), num + 1).

(** The conversion of the int [num] in [ave/num]. *)
Definition float_of_int (n : Z) : float := PrimFloat.of_uint63 (Uint63.of_Z n).

(** [export_average(rs, filename, action, a_date)] *)
Definition export_average (rs : Recordset) (filename : string) (action : mode)
    (a_date : string) (fs : FS) : FS * result unit :=
  let fs := open_file fs filename action in
  if negb (BOF rs || EOF rs) then
    let '(tagname, ave, num) :=
      fold_left average_step (GetRows rs) (None, 0%float, 0) in
    if num =? 0 then (fs, Raise ZeroDivisionError)
    else
      let ave := PrimFloat.div ave (float_of_int num) in
      match tagname with
      | Some tagname =>
          (write_line fs filename
             {| l_tag := tagname; l_time := a_date; l_value := ave |}, Ok tt)
      | None => (fs, Raise UnboundLocalError)
      end
  else (fs, Ok tt).

(* ===================================================================== *)
(** ** getTag *)
(* ===================================================================== *)

Fixpoint replace_char (old new : ascii) (s : string) : string :=
  match s with
  | EmptyString => EmptyString
  | String c s' =>
      String (if Ascii.eqb c old then new else c) (replace_char old new s')
  end.

(** [id + tag.replace('/', '_') + '.txt'] *)
Definition filename_of (id tag : string) : string :=
  (id +:+ replace_char "/" "_" tag +:+ ".txt")%string.

(** What one iteration of the packet loop did: the cursor before and after
    [d += delta], and the query sent for it. *)
Record Packet : Type := { p_lo : datetime; p_hi : datetime; p_query : Query }.

Section GetTag.
Variable connection : Connection.
Variables tag filename : string.
Variable endTime : datetime.
Variable delta : timedelta.
Variable average : bool.

(** The [try] block of the loop, for the cursor [d] already moved on;
    [except: pass] drops the exception and keeps what was done to the file
    before it. *)
Definition try_block (date1 date2 : string) (d : datetime) (action : mode)
    (fs : FS) : FS * result unit :=
  match adodb_query connection tag date1 date2 with
  | Raise e => (fs, Raise e)
  | Ok recordSet =>
      if average then
        export_average recordSet filename action
          (strftime (d - timedelta_truediv delta 2)) fs
      else export recordSet filename action fs
  end.

(** The body of [while d < endTime]. *)
Definition loop_body (d : datetime) (fs : FS) : datetime * FS * Packet :=
  let date1 := strftime d in
  let d' := d + delta in
  let date2 := strftime d' in
  let action := if isfile fs filename then mode_a else mode_w in
  let fs' := fst (try_block date1 date2 d' action fs) in
  (d', fs',
   {| p_lo := d; p_hi := d';
      p_query := {| q_tag := tag; q_start := date1; q_end := date2 |} |}).

(** [while d < endTime: ...] with at most [fuel] iterations; [log] is the
    list of the packets done so far. *)
Fixpoint getTag_loop (fuel : nat) (d : datetime) (fs : FS)
    (log : list Packet) : option (FS * list Packet) :=
  if d <? endTime then
    match fuel with
    | O => None
    | S fuel' =>
        let '(d', fs', p) := loop_body d fs in
        getTag_loop fuel' d' fs' (log ++ [p])
    end
  else Some (fs, log).

(** The lines after the loop: [os.stat] raises when the file is
    missing. *)
Definition getTag_finish (fs : FS) : FS * result bool :=
  match fs !! filename with
  | None => (fs, Raise FileNotFoundError)
  | Some content =>
      let isEmpty := match content with [] => true | _ => false end in
      if isEmpty then (delete filename fs, Ok isEmpty) else (fs, Ok isEmpty)
  end.
End GetTag.

(** [getTag(tag, startTime, endTime, id, packetsize, average)] on an open
    connection: the file system after the call, the packets of the loop
    and the flag returned or the exception raised. *)
Definition getTag (fuel : nat) (connection : Connection) (fs : FS)
    (tag : string) (startTime endTime : datetime) (id : string)
    (packetsize : timedelta) (average : bool)
  : option (FS * list Packet * result bool) :=
  let delta := packetsize in
  let filename := filename_of id tag in
  match getTag_loop connection tag filename endTime delta average
          fuel startTime fs [] with
  | None => None
  | Some (fs', log) =>
      let '(fs'', r) := getTag_finish filename fs' in Some (fs'', log, r)
  end.

(* ===================================================================== *)
(** ** extract_data and the main program *)
(* ===================================================================== *)

(** A line printed by [extract_data]. *)
Record Report : Type :=
  { rep_start : datetime; rep_stop : datetime; rep_tag : string;
    rep_verdict : string }.

(** [extract_data(start, stop, packetsize, average)] for the tags read
    from the tag list; every call of [getTag] has the fuel [fuel]. *)
Fixpoint extract_data (fuel : nat) (connection : Connection)
    (tags : list string) (start stop : datetime) (packetsize : timedelta)
    (average : bool) (fs : FS) (out : list Report)
  : option (FS * list Report * result unit) :=
  match tags with
  | [] => Some (fs, out, Ok tt)
  | tag :: tags' =>
      match getTag fuel connection fs tag start stop EmptyString packetsize
              average with
      | None => None
      | Some (fs', _, Raise e) => Some (fs', out, Raise e)
      | Some (fs', _, Ok isEmpty) =>
          let line :=
            {| rep_start := start; rep_stop := stop; rep_tag := tag;
               rep_verdict := if isEmpty then "Empty" else "Signal" |} in
          extract_data fuel connection tags' start stop packetsize average
                       fs' (out ++ [line])
      end
  end.

(** The windowing sub-command with its arguments, the datetimes already
    parsed; [D] is the type of a duration argument. *)
Inductive Windowing (D : Type) : Type :=
| se (s e : datetime)
| sw (s : datetime) (w : D)
| ew (e : datetime) (w : D).

Arguments se {D} s e.
Arguments sw {D} s w.
Arguments ew {D} e w.

(** The command line: a duration option is its text, or [None] when the
    option is left out. *)
Record CommandLine : Type :=
  { cl_window : Windowing (option string); cl_psize : option string;
    cl_pave : bool }.

(** The namespace of [parser.parse_args()]: a duration is what
    [parse_time] returned for it, a timedelta or Python's [None]. *)
Record Args : Type :=
  { subparser : Windowing (option timedelta); psize : option timedelta;
    pave : bool }.

(** An option declared with [type=parse_time] and
    [default=timedelta(days=1)]; argparse answers a ValueError or a
    TypeError of the type function with its error message and exit, and
    lets every other exception pass. *)
Definition duration_arg (a : option string) : result (option timedelta) :=
  match a with
  | None => Ok (Some (timedelta_of 1 0 0 0))
  | Some text =>
      match parse_time text with
      | Raise ValueError | Raise TypeError => Raise SystemExit
      | r => r
      end
  end.

Definition window_args (w : Windowing (option string))
  : result (Windowing (option timedelta)) :=
  match w with
  | se s e => Ok (se s e)
  | sw s w =>
      match duration_arg w with Ok w => Ok (sw s w) | Raise e => Raise e end
  | ew e w =>
      match duration_arg w with Ok w => Ok (ew e w) | Raise e => Raise e end
  end.

(** [get_cli_args()] *)
Definition get_cli_args (cl : CommandLine) : result Args :=
  match duration_arg (cl_psize cl), window_args (cl_window cl) with
  | Ok p, Ok w => Ok {| subparser := w; psize := p; pave := cl_pave cl |}
  | Raise e, _ => Raise e
  | _, Raise e => Raise e
  end.

(** [start, end] of the three sub-commands; arithmetic on [None] raises
    TypeError. *)
Definition resolve_window (w : Windowing (option timedelta))
  : result (datetime * datetime) :=
  match w with
  | se s e => Ok (s, e)
  | sw s (Some w) => Ok (s, s + w)
  | ew e (Some w) => Ok (e - w, e)
  | _ => Raise TypeError
  end.

(** The window of a command line: its arguments parsed and resolved. *)
Definition resolved_window (w : Windowing (option string))
  : result (datetime * datetime) :=
  match window_args w with
  | Ok a => resolve_window a
  | Raise e => Raise e
  end.

(** [if end-start < packet_size: packet_size = end-start] *)
Definition clamp_packet_size (start end_ : datetime) (packet_size : timedelta)
  : timedelta :=
  if end_ - start <? packet_size then end_ - start else packet_size.

(** The main program from the parsed arguments on. *)
Definition main_args (fuel : nat) (connection : Connection)
    (tags : list string) (args : Args) (fs : FS)
  : option (FS * list Report * result unit) :=
  match resolve_window (subparser args) with
  | Raise e => Some (fs, [], Raise e)
  | Ok (start, end_) =>
      let average := pave args in
      if end_ <? start then Some (fs, [], Raise SystemExit)
      else
        match psize args with
        | None => Some (fs, [], Raise TypeError)
        | Some packet_size =>
            let packet_size := clamp_packet_size start end_ packet_size in
            extract_data fuel connection tags start end_ packet_size average
                         fs []
        end
  end.

(** The main program. *)
Definition main (fuel : nat) (connection : Connection) (tags : list string)
    (cl : CommandLine) (fs : FS) : option (FS * list Report * result unit) :=
  match get_cli_args cl with
  | Raise e => Some (fs, [], Raise e)
  | Ok args => main_args fuel connection tags args fs
  end.

(* ===================================================================== *)
(** ** The pattern of durations, as the documentation states it *)
(* ===================================================================== *)

Fixpoint only_digits (s : string) : bool :=
  match s with
  | EmptyString => true
  | String c s' => is_digit c && only_digits s'
  end.

(** [<N>]: a non-empty run of decimal digits. *)
Definition number (s : string) : Prop :=
  s ≠ EmptyString ∧ only_digits s = true.

(** The value of a decimal numeral, digit by digit with its weight. *)
Fixpoint numeral_value (s : string) : Z :=
  match s with
  | EmptyString => 0
  | String c s' =>
      digit_value c * 10 ^ Z.of_nat (String.length s') + numeral_value s'
  end.

(** A group of the pattern: the numeral of a group that is present, or
    [None] for a group that is absent. *)
Definition group_ok (g : option string) : Prop :=
  match g with Some ds => number ds | None => True end.


(** A numeral that [int] converts: it keeps to the limit of the digits. *)
Definition short_numeral (s : string) : Prop :=
  Z.of_nat (String.length s) <= MAX_STR_DIGITS.

Definition group_short (g : option string) : Prop :=
  match g with Some ds => short_numeral ds | None => True end.

(** A group of the pattern with a numeral that [int] converts. *)
Definition group_fits (g : option string) : Prop :=
  group_ok g ∧ group_short g.

(** A duration that the constructor of a timedelta accepts, for
    microseconds that are not negative. *)
Definition in_range (microseconds : Z) : Prop :=
  microseconds / 86400000000 <= MAX_DELTA_DAYS.

(** The component of an absent group is zero. *)
Definition component (g : option string) : Z :=
  match g with Some ds => numeral_value ds | None => 0 end.


(** A string at whose start no group of the pattern is found: it does not
    begin with a number followed by one of the units. *)
Definition no_group_at_start (s : string) : Prop :=
  ∀ ds unit rest,
    number ds → unit ∈ ["d"; "hr"; "m"; "s"]%string →
    s ≠ (ds +:+ unit +:+ rest)%string.

(** The longest run of digits at the start of a string, and what is left
    after it. *)
Fixpoint span_digits (s : string) : string * string :=
  match s with
  | String c s' =>
      if is_digit c
      then let '(ds, rest) := span_digits s' in (String c ds, rest)
      else (EmptyString, s)
  | EmptyString => (EmptyString, EmptyString)
  end.

(** The group with the unit [unit] at the start of [s]: its numeral and
    the text after the unit. *)
Definition group_at (unit s : string) : option (string * string) :=
  match span_digits s with
  | (String c ds, rest) =>
      match match_literal unit rest with
      | Some rest' => Some (String c ds, rest')
      | None => None
      end
  | _ => None
  end.

(** A unit of the pattern starts with a character that is no digit. *)
Definition unit_ok (unit : string) : Prop :=
  match unit with
  | String c _ => is_digit c = false
  | EmptyString => False
  end.

Definition caps_ok (caps : gmap string string) : Prop :=
  ∀ name v, caps !! name = Some v → number v.

Definition caps_short (caps : gmap string string) : Prop :=
  ∀ name v, caps !! name = Some v → short_numeral v.

(** One optional group of the pattern, taken at the start of the text that
    is left when it is there. *)
Definition take_group (name unit : string)
    (st : gmap string string * string) : gmap string string * string :=
  match group_at unit st.2 with
  | Some (ds, rest) => (<[name := ds]> st.1, rest)
  | None => st
  end.

(* ===================================================================== *)
(** ** The packets of a window, as the specification counts them *)
(* ===================================================================== *)

(** The quotient rounded up, for a positive divisor. *)
Definition ceil_div (a b : Z) : Z := (a + b - 1) / b.

(** [ceil((end - start) / packetSize)] *)
Definition packet_count (startTime endTime : datetime) (packetsize : timedelta)
  : nat :=
  Z.to_nat (ceil_div (endTime - startTime) packetsize).

(** The packet number [k] of a window that starts at [startTime]. *)
Definition packet_at (tag : string) (startTime : datetime) (delta : timedelta)
    (k : nat) : Packet :=
  let lo := startTime + Z.of_nat k * delta in
  {| p_lo := lo; p_hi := lo + delta;
     p_query := {| q_tag := tag; q_start := strftime lo;
                   q_end := strftime (lo + delta) |} |}.

Definition packets (tag : string) (startTime : datetime) (delta : timedelta)
    (n : nat) : list Packet :=
  map (packet_at tag startTime delta) (seq 0 n).

(** The instants that the query of a packet asks for: the two texts of the
    query denote whole seconds, and the comparison of the query includes
    both. *)
Definition in_query_range (t : datetime) (p : Packet) : Prop :=
  trunc_sec (p_lo p) <= t <= trunc_sec (p_hi p).

(** The arithmetic mean of the values, summed from the first to the
    last. *)
Definition arithmetic_mean (values : list float) : float :=
  PrimFloat.div (fold_left PrimFloat.add values 0%float)
                (float_of_int (Z.of_nat (length values))).


Definition answered (r : result Recordset) : Prop :=
  match r with Ok _ => True | Raise _ => False end.

Section Iterate.
Variable connection : Connection.
Variables tag filename : string.
Variable delta : timedelta.
Variable average : bool.

(** [n] iterations of the body of the loop, the guard left aside. *)
Fixpoint iterate_body (n : nat) (d : datetime) (fs : FS)
    (log : list Packet) : datetime * FS * list Packet :=
  match n with
  | O => (d, fs, log)
  | S n' =>
      let '(d', fs', p) :=
        loop_body connection tag filename delta average d fs in
      iterate_body n' d' fs' (log ++ [p])
  end.
End Iterate.

(* ===================================================================== *)
(** ** The tag list *)
(* ===================================================================== *)

(** [str.isspace] on the characters of the model, the code points below
    256: tab to carriage return, the four separators 28 to 31, the space,
    the next-line character 133 and the no-break space 160. *)
Definition isspace (c : ascii) : bool :=
  let n := nat_of_ascii c in
  ((9 <=? n)%nat && (n <=? 13)%nat) || ((28 <=? n)%nat && (n <=? 32)%nat)
  || (n =? 133)%nat || (n =? 160)%nat.

Definition LF : ascii := ascii_of_nat 10.
Definition CR : ascii := ascii_of_nat 13.

Fixpoint lstrip (s : string) : string :=
  match s with
  | String c s' => if isspace c then lstrip s' else s
  | EmptyString => EmptyString
  end.

Fixpoint rstrip (s : string) : string :=
  match s with
  | String c s' =>
      match rstrip s' with
      | EmptyString => if isspace c then EmptyString else String c EmptyString
      | r => String c r
      end
  | EmptyString => EmptyString
  end.

(** [line.strip()] *)
Definition strip (s : string) : string := rstrip (lstrip s).

(** The text mode of [open(..., "r")]: a carriage return, with a line feed
    after it or alone, is read as one line feed. *)
Fixpoint universal_newlines (s : string) : string :=
  match s with
  | String c s' =>
      if Ascii.eqb c CR then
        match s' with
        | String c' s'' =>
            if Ascii.eqb c' LF then String LF (universal_newlines s'')
            else String LF (universal_newlines s')
        | EmptyString => String LF EmptyString
        end
      else String c (universal_newlines s')
  | EmptyString => EmptyString
  end.

(** The lines of a text, each with its line feed; [cur] is the start of
    the line that is being read. *)
Fixpoint split_lines (s cur : string) : list string :=
  match s with
  | String c s' =>
      if Ascii.eqb c LF
      then (cur +:+ String LF EmptyString)%string :: split_lines s' EmptyString
      else split_lines s' (cur +:+ String c EmptyString)%string
  | EmptyString =>
      match cur with EmptyString => [] | _ => [cur] end
  end.

(** [f.readlines()] *)
Definition readlines (content : string) : list string :=
  split_lines (universal_newlines content) EmptyString.

(** [get_tags()]: [tag_list] is what the file tag.list holds, [None] when
    there is no such file. *)
Definition get_tags (tag_list : option string) : result (list string) :=
  match tag_list with
  | None => Raise FileNotFoundError
  | Some content =>
      let lines := readlines content in
      Ok (map strip
            (List.filter
               (λ line, negb (String.length (strip line) =? 0)%nat) lines))
  end.

(** [extract_data(start, stop, packetsize, average)] with its own call of
    [get_tags]. *)
Definition extract_data_tag_list (fuel : nat) (connection : Connection)
    (tag_list : option string) (start stop : datetime)
    (packetsize : timedelta) (average : bool) (fs : FS)
  : option (FS * list Report * result unit) :=
  match get_tags tag_list with
  | Raise e => Some (fs, [], Raise e)
  | Ok tags =>
      extract_data fuel connection tags start stop packetsize average fs []
  end.

(** A tag as [get_tags] hands it on: not empty, no white space at its
    ends and no line break in it. *)
Fixpoint no_line_break (s : string) : bool :=
  match s with
  | String c s' =>
      negb (Ascii.eqb c LF) && negb (Ascii.eqb c CR) && no_line_break s'
  | EmptyString => true
  end.

(** Every character of the string is white space. *)
Fixpoint all_space (s : string) : bool :=
  match s with
  | String c s' => isspace c && all_space s'
  | EmptyString => true
  end.

Fixpoint no_cr (s : string) : bool :=
  match s with
  | String c s' => negb (Ascii.eqb c CR) && no_cr s'
  | EmptyString => true
  end.

Definition clean_tag (t : string) : Prop :=
  t ≠ EmptyString ∧ strip t = t ∧ no_line_break t = true.

(** A line of [readlines]: its text has no line break, and it ends with
    the line feed or is the last line of a text without one. *)
Definition line_body (line body : string) : Prop :=
  no_line_break body = true
  ∧ (line = body ∨ line = (body +:+ String LF EmptyString)%string).

(** A tag list written with one tag on a line. *)
Definition one_per_line (tags : list string) : string :=
  fold_right (λ t text, (t +:+ String LF text)%string) EmptyString tags.

(* ===================================================================== *)
(** ** The lines of a packet *)
(* ===================================================================== *)

(** The lines that the answer to the query of a packet puts into the
    output file. *)
Definition packet_lines (connection : Connection) (delta : timedelta)
    (average : bool) (p : Packet) : list Line :=
  match connection (p_query p) with
  | Raise _ => []
  | Ok rs =>
      if negb (BOF rs || EOF rs) then
        if average then
          match last (GetRows rs) with
          | Some r =>
              [ {| l_tag := r_tag r;
                   l_time := strftime (p_hi p - timedelta_truediv delta 2);
                   l_value := arithmetic_mean (map r_value (GetRows rs)) |} ]
          | None => []
          end
        else map line_of_row (GetRows rs)
      else []
  end.

(** No character of the string is the slash. *)
Fixpoint no_slash (s : string) : bool :=
  match s with
  | String c s' => negb (Ascii.eqb c "/") && no_slash s'
  | EmptyString => true
  end.

(* ===================================================================== *)
(** ** The calls of the connection *)
(* ===================================================================== *)

(** [connection.Execute(query_str)]: the call is added to the trace of the
    calls that the connection has received, whatever its answer is. *)
Definition Execute (connection : Connection) (trace : list Query) (q : Query)
  : list Query * result Recordset :=
  (trace ++ [q], connection q).

(** [adodb_query(connection, tag, startTime, endTime)], with the trace. *)
Definition adodb_query_traced (connection : Connection) (trace : list Query)
    (tag startTime endTime : string) : list Query * result Recordset :=
  Execute connection trace
    {| q_tag := tag; q_start := startTime; q_end := endTime |}.

Section GetTagTraced.
Variable connection : Connection.
Variables tag filename : string.
Variable endTime : datetime.
Variable delta : timedelta.
Variable average : bool.

(** The [try] block of the loop, with the trace. *)
Definition try_block_traced (date1 date2 : string) (d : datetime)
    (action : mode) (trace : list Query) (fs : FS)
  : list Query * FS * result unit :=
  let '(trace', answer) :=
    adodb_query_traced connection trace tag date1 date2 in
  match answer with
  | Raise e => (trace', fs, Raise e)
  | Ok recordSet =>
      let '(fs', r) :=
        if average then
          export_average recordSet filename action
            (strftime (d - timedelta_truediv delta 2)) fs
        else export recordSet filename action fs in
      (trace', fs', r)
  end.

(** The body of [while d < endTime], with the trace. *)
Definition loop_body_traced (d : datetime) (trace : list Query) (fs : FS)
  : datetime * list Query * FS * Packet :=
  let date1 := strftime d in
  let d' := d + delta in
  let date2 := strftime d' in
  let action := if isfile fs filename then mode_a else mode_w in
  let '(trace', fs', _) := try_block_traced date1 date2 d' action trace fs in
  (d', trace', fs',
   {| p_lo := d; p_hi := d';
      p_query := {| q_tag := tag; q_start := date1; q_end := date2 |} |}).

(** The loop of [getTag], with the trace. *)
Fixpoint getTag_loop_traced (fuel : nat) (d : datetime) (trace : list Query)
    (fs : FS) (log : list Packet)
  : option (list Query * FS * list Packet) :=
  if d <? endTime then
    match fuel with
    | O => None
    | S fuel' =>
        let '(d', trace', fs', p) := loop_body_traced d trace fs in
        getTag_loop_traced fuel' d' trace' fs' (log ++ [p])
    end
  else Some (trace, fs, log).
End GetTagTraced.

(** [getTag], with the trace. *)
Definition getTag_traced (fuel : nat) (connection : Connection)
    (trace : list Query) (fs : FS) (tag : string)
    (startTime endTime : datetime) (id : string) (packetsize : timedelta)
    (average : bool)
  : option (list Query * FS * list Packet * result bool) :=
  let delta := packetsize in
  let filename := filename_of id tag in
  match getTag_loop_traced connection tag filename endTime delta average
          fuel startTime trace fs [] with
  | None => None
  | Some (trace', fs', log) =>
      let '(fs'', r) := getTag_finish filename fs' in
      Some (trace', fs'', log, r)
  end.

(** [extract_data] for a list of tags, with the trace. *)
Fixpoint extract_data_traced (fuel : nat) (connection : Connection)
    (trace : list Query) (tags : list string) (start stop : datetime)
    (packetsize : timedelta) (average : bool) (fs : FS) (out : list Report)
  : option (list Query * FS * list Report * result unit) :=
  match tags with
  | [] => Some (trace, fs, out, Ok tt)
  | tag :: tags' =>
      match getTag_traced fuel connection trace fs tag start stop EmptyString
              packetsize average with
      | None => None
      | Some (trace', fs', _, Raise e) => Some (trace', fs', out, Raise e)
      | Some (trace', fs', _, Ok isEmpty) =>
          let line :=
            {| rep_start := start; rep_stop := stop; rep_tag := tag;
               rep_verdict := if isEmpty then "Empty" else "Signal" |} in
          extract_data_traced fuel connection trace' tags' start stop
            packetsize average fs' (out ++ [line])
      end
  end.

(** [extract_data] with its own call of [get_tags], with the trace. *)
Definition extract_data_tag_list_traced (fuel : nat) (connection : Connection)
    (trace : list Query) (tag_list : option string) (start stop : datetime)
    (packetsize : timedelta) (average : bool) (fs : FS)
  : option (list Query * FS * list Report * result unit) :=
  match get_tags tag_list with
  | Raise e => Some (trace, fs, [], Raise e)
  | Ok tags =>
      extract_data_traced fuel connection trace tags start stop packetsize
        average fs []
  end.

(** The main program from the parsed arguments on, with the trace. *)
Definition main_args_traced (fuel : nat) (connection : Connection)
    (trace : list Query) (tags : list string) (args : Args) (fs : FS)
  : option (list Query * FS * list Report * result unit) :=
  match resolve_window (subparser args) with
  | Raise e => Some (trace, fs, [], Raise e)
  | Ok (start, end_) =>
      let average := pave args in
      if end_ <? start then Some (trace, fs, [], Raise SystemExit)
      else
        match psize args with
        | None => Some (trace, fs, [], Raise TypeError)
        | Some packet_size =>
            let packet_size := clamp_packet_size start end_ packet_size in
            extract_data_traced fuel connection trace tags start end_
              packet_size average fs []
        end
  end.

(** The main program, with the trace. *)
Definition main_traced (fuel : nat) (connection : Connection)
    (trace : list Query) (tags : list string) (cl : CommandLine) (fs : FS)
  : option (list Query * FS * list Report * result unit) :=
  match get_cli_args cl with
  | Raise e => Some (trace, fs, [], Raise e)
  | Ok args => main_args_traced fuel connection trace tags args fs
  end.

(** A run without its trace. *)
Definition untraced {A B C : Type}
    (run : option (list Query * A * B * C)) : option (A * B * C) :=
  match run with
  | Some (_, a, b, c) => Some (a, b, c)
  | None => None
  end.

(* ===================================================================== *)
(** * Properties *)
(* ===================================================================== *)

(** ** Strings *)

#[local] Arguments String.append !_ _ / : simpl nomatch.


Lemma append_assoc (s1 s2 s3 : string) :
  ((s1 +:+ s2) +:+ s3)%string = (s1 +:+ (s2 +:+ s3))%string.
Proof. induction s1 as [|c s1 IH]; simpl; [reflexivity | by rewrite IH]. Qed.

Lemma append_length (s1 s2 : string) :
  String.length (s1 +:+ s2) = (String.length s1 + String.length s2)%nat.
Proof. induction s1 as [|c s1 IH]; simpl; [reflexivity | by rewrite IH]. Qed.

(** ** The duration parser *)

Lemma int_digits_value (s : string) (acc : Z) :
  only_digits s = true →
  int_digits s acc
  = Some (acc * 10 ^ Z.of_nat (String.length s) + numeral_value s).
Proof.
  revert acc. induction s as [|c s IH]; intros acc Hd; simpl in *.
  - f_equal. lia.
  - apply andb_true_iff in Hd as [Hc Hs]. rewrite Hc, (IH _ Hs). f_equal.
    rewrite Nat2Z.inj_succ, Z.pow_succ_r by lia. ring.
Qed.

Lemma int_number (s : string) :
  number s → short_numeral s → int s = Some (numeral_value s).
Proof.
  intros [Hne Hd] Hs. destruct s as [|c s]; [done |].
  unfold int. unfold short_numeral in Hs.
  assert ((MAX_STR_DIGITS <? Z.of_nat (String.length (String c s))) = false)
    as -> by (apply Z.ltb_ge; lia).
  rewrite int_digits_value by done. f_equal.
Qed.

Lemma int_long (s : string) :
  ¬ short_numeral s → int s = None.
Proof.
  intros Hs. destruct s as [|c s]; [done |]. unfold int.
  unfold short_numeral in Hs.
  assert ((MAX_STR_DIGITS <? Z.of_nat (String.length (String c s))) = true)
    as -> by (apply Z.ltb_lt; lia).
  reflexivity.
Qed.

Lemma span_digits_number (ds : string) (c : ascii) (rest : string) :
  only_digits ds = true → is_digit c = false →
  span_digits (ds +:+ String c rest) = (ds, String c rest).
Proof.
  intros Hd Hc. induction ds as [|a ds IH]; simpl in *.
  - by rewrite Hc.
  - apply andb_true_iff in Hd as [Ha Hd]. by rewrite Ha, (IH Hd).
Qed.

Lemma span_digits_all (ds : string) :
  only_digits ds = true → span_digits ds = (ds, EmptyString).
Proof.
  intros Hd. induction ds as [|a ds IH]; simpl in *; [done |].
  apply andb_true_iff in Hd as [Ha Hd]. by rewrite Ha, (IH Hd).
Qed.

Lemma span_digits_sound (s ds rest : string) :
  span_digits s = (ds, rest) →
  s = (ds +:+ rest)%string ∧ only_digits ds = true.
Proof.
  revert ds rest. induction s as [|c s IH]; intros ds rest; simpl.
  - intros [= <- <-]. done.
  - destruct (is_digit c) eqn:Hc.
    + destruct (span_digits s) as [ds' rest'] eqn:Hs.
      intros [= <- <-]. destruct (IH _ _ eq_refl) as [-> Hd].
      simpl. by rewrite Hc, Hd.
    + intros [= <- <-]. done.
Qed.

Lemma match_literal_sound (lit s rest : string) :
  match_literal lit s = Some rest → s = (lit +:+ rest)%string.
Proof.
  revert s. induction lit as [|a lit IH]; intros s; simpl.
  - by intros [= ->].
  - destruct s as [|b s]; [done |].
    destruct (Ascii.eqb_spec a b) as [->|]; [|done].
    intros H. by rewrite (IH _ H).
Qed.

Lemma match_literal_app (lit rest : string) :
  match_literal lit (lit +:+ rest) = Some rest.
Proof.
  induction lit as [|a lit IH]; simpl; [done |]. by rewrite Ascii.eqb_refl.
Qed.

Lemma group_at_sound (unit s ds rest : string) :
  group_at unit s = Some (ds, rest) →
  number ds ∧ s = (ds +:+ unit +:+ rest)%string.
Proof.
  unfold group_at. destruct (span_digits s) as [d r] eqn:Hs.
  apply span_digits_sound in Hs as [-> Hd].
  destruct d as [|c d]; [done |].
  destruct (match_literal unit r) as [r'|] eqn:Hl; [|done].
  intros [= <- <-]. apply match_literal_sound in Hl as ->. done.
Qed.

Lemma group_at_present (unit ds rest : string) :
  unit_ok unit → number ds →
  group_at unit (ds +:+ unit +:+ rest) = Some (ds, rest).
Proof.
  intros Hu [Hne Hd]. unfold group_at.
  destruct unit as [|u unit]; [done |]. simpl in Hu.
  change ((String u unit +:+ rest)%string) with (String u (unit +:+ rest)).
  rewrite span_digits_number by done.
  destruct ds as [|c ds]; [done |].
  change (String u (unit +:+ rest)) with ((String u unit +:+ rest)%string).
  by rewrite match_literal_app.
Qed.

(** The lazy run of digits before a continuation that fails in front of a
    digit: the continuation gets the whole run. *)
Lemma lazy_digits_span {R : Type} (s acc : string)
    (k : string → string → option R) :
  (∀ a c s', is_digit c = true → k a (String c s') = None) →
  lazy_digits s acc k
  = match span_digits s with
    | (String c ds, rest) => k (acc +:+ String c ds)%string rest
    | _ => None
    end.
Proof.
  intros Hk. revert acc. induction s as [|c s IH]; intros acc; simpl; [done |].
  destruct (is_digit c) eqn:Hc; [|done].
  rewrite IH. destruct s as [|b s]; simpl.
  - by destruct (k _ _).
  - destruct (is_digit b) eqn:Hb.
    + rewrite (Hk _ _ _ Hb). destruct (span_digits s) as [ds rest].
      by rewrite append_assoc.
    + by destruct (k _ _).
Qed.

Lemma optional_group_spec {R : Type} (name unit s : string)
    (caps : gmap string string)
    (k : string → gmap string string → option R) :
  unit_ok unit →
  optional_group name unit s caps k
  = match group_at unit s with
    | Some (ds, rest) =>
        match k rest (<[name := ds]> caps) with
        | Some r => Some r
        | None => k s caps
        end
    | None => k s caps
    end.
Proof.
  intros Hu. unfold optional_group, group_at.
  rewrite lazy_digits_span.
  - destruct (span_digits s) as [[|c ds] rest]; [done |].
    simpl. by destruct (match_literal unit rest).
  - intros a c s' Hc. destruct unit as [|u unit]; [done |]. simpl in *.
    destruct (Ascii.eqb_spec u c) as [->|]; [congruence | done].
Qed.

(** ** The calendar *)

Example strftime_2019_04_07 :
  strftime (datetime_of 2019 4 7 12 0 0 0) = "07.04.2019  12:00:00"%string.
Proof. reflexivity. Qed.

Example strftime_drops_microseconds :
  strftime (datetime_of 2020 2 29 23 59 59 999999)
  = "29.02.2020  23:59:59"%string.
Proof. reflexivity. Qed.

Example strftime_new_year :
  strftime (datetime_of 2020 12 31 23 59 59 999999 + 1)
  = "01.01.2021  00:00:00"%string.
Proof. reflexivity. Qed.

Example strftime_no_leap_day_1900 :
  strftime (datetime_of 1900 3 1 0 0 0 0 - 1) = "28.02.1900  23:59:59"%string.
Proof. reflexivity. Qed.

Example strftime_leap_day_2000 :
  strftime (datetime_of 2000 3 1 0 0 0 0 - 1) = "29.02.2000  23:59:59"%string.
Proof. reflexivity. Qed.

Example timedelta_truediv_half_even :
  timedelta_truediv 5 2 = 2 ∧ timedelta_truediv 7 2 = 4
  ∧ timedelta_truediv 600000000 2 = 300000000.
Proof. repeat split; reflexivity. Qed.

Example parse_time_unit_hrs :
  parse_time "2d2hrs5m" = Ok (Some (timedelta_of 2 2 0 0)).
Proof. reflexivity. Qed.

Example parse_time_prefix_only :
  parse_time "5s3d" = Ok (Some (timedelta_of 0 0 0 5)).
Proof. reflexivity. Qed.

Example filename_of_slash :
  filename_of "" "A/B.C" = "A_B.C.txt"%string.
Proof. reflexivity. Qed.

Lemma optional_group_seq {R : Type} (name unit s : string)
    (caps : gmap string string)
    (k : string → gmap string string → option R) :
  unit_ok unit → (∀ s c, is_Some (k s c)) →
  optional_group name unit s caps k
  = let st := take_group name unit (caps, s) in k st.2 st.1.
Proof.
  intros Hu Hk. rewrite optional_group_spec by done. unfold take_group. simpl.
  destruct (group_at unit s) as [[ds rest]|]; [|done].
  simpl. by destruct (Hk rest (<[name:=ds]> caps)) as [r ->].
Qed.

Lemma optional_group_total {R : Type} (name unit : string)
    (k : string → gmap string string → option R) :
  unit_ok unit → (∀ s c, is_Some (k s c)) →
  ∀ s c, is_Some (optional_group name unit s c k).
Proof. intros Hu Hk s c. rewrite optional_group_seq by done. apply Hk. Qed.

(** The backtracking matcher takes the four groups one after the other. *)
Lemma regex_match_seq (s : string) :
  regex_match s
  = Some (take_group "seconds" "s"
            (take_group "minutes" "m"
               (take_group "hours" "hr"
                  (take_group "days" "d" (∅, s))))).1.
Proof.
  unfold regex_match.
  rewrite !optional_group_seq;
    repeat first [ done | by eauto | apply optional_group_total ].
  cbv zeta. by rewrite <- !surjective_pairing.
Qed.

Lemma take_group_caps_ok (name unit : string)
    (st : gmap string string * string) :
  caps_ok st.1 → caps_ok (take_group name unit st).1.
Proof.
  intros Hok. unfold take_group.
  destruct (group_at unit st.2) as [[ds rest]|] eqn:Hg; [|done].
  apply group_at_sound in Hg as [Hn _]. simpl. intros n v.
  destruct (decide (name = n)) as [->|Hne].
  - rewrite lookup_insert_eq. by intros [= <-].
  - rewrite lookup_insert_ne by done. apply Hok.
Qed.

Lemma regex_match_caps_ok (s : string) :
  ∃ caps, regex_match s = Some caps ∧ caps_ok caps.
Proof.
  rewrite regex_match_seq. eexists. split; [reflexivity |].
  do 4 apply take_group_caps_ok. simpl. intros n v. by rewrite lookup_empty.
Qed.

Lemma collect_ok_step (name : string) (g : option string)
    (items : list (string * option string)) (kw : gmap string Z) :
  group_ok g → group_short g →
  collect_time_params ((name, g) :: items) kw
  = collect_time_params items
      (match g with
       | Some ds => <[name := numeral_value ds]> kw
       | None => kw
       end).
Proof.
  intros Hg Hs. destruct g as [ds|]; [|done]. simpl in Hg, Hs.
  pose proof (int_number _ Hg Hs) as Hi. destruct Hg as [Hne _].
  destruct ds as [|c ds]; [done |]. cbn [collect_time_params]. by rewrite Hi.
Qed.

Lemma collect_long_step (name : string) (ds : string)
    (items : list (string * option string)) (kw : gmap string Z) :
  number ds → ¬ short_numeral ds →
  collect_time_params ((name, Some ds) :: items) kw = Raise ValueError.
Proof.
  intros [Hne _] Hs. pose proof (int_long _ Hs) as Hi.
  destruct ds as [|c ds]; [done |]. cbn [collect_time_params]. by rewrite Hi.
Qed.

Lemma timedelta_new_nonneg (us : Z) :
  0 <= us →
  timedelta_new us
  = if us / 86400000000 <=? MAX_DELTA_DAYS then Ok us
    else Raise OverflowError.
Proof.
  intros H. unfold timedelta_new.
  assert ((- MAX_DELTA_DAYS <=? us / 86400000000) = true) as ->; [|done].
  apply Z.leb_le. pose proof (Z.div_pos us 86400000000 H ltac:(lia)).
  unfold MAX_DELTA_DAYS. lia.
Qed.

Lemma digit_value_nonneg (c : ascii) : is_digit c = true → 0 <= digit_value c.
Proof.
  unfold is_digit, digit_value. intros H.
  apply andb_true_iff in H as [H _]. apply Nat.leb_le in H. lia.
Qed.

Lemma numeral_value_nonneg (s : string) :
  only_digits s = true → 0 <= numeral_value s.
Proof.
  induction s as [|c s IH]; simpl; [lia |]. intros H.
  apply andb_true_iff in H as [Hc Hs].
  pose proof (digit_value_nonneg c Hc). specialize (IH Hs).
  assert (0 <= 10 ^ Z.of_nat (String.length s)) by (apply Z.pow_nonneg; lia).
  nia.
Qed.

Lemma component_nonneg (g : option string) : group_ok g → 0 <= component g.
Proof.
  destruct g as [ds|]; simpl; [|lia]. intros [_ H].
  by apply numeral_value_nonneg.
Qed.

Lemma timedelta_of_nonneg (gd gh gm gs : option string) :
  group_ok gd → group_ok gh → group_ok gm → group_ok gs →
  ∃ seconds,
    0 <= seconds
    ∧ timedelta_of (component gd) (component gh) (component gm)
        (component gs) = seconds * 1000000.
Proof.
  intros Hd Hh Hm Hs. unfold timedelta_of. eexists. split; [|reflexivity].
  pose proof (component_nonneg _ Hd). pose proof (component_nonneg _ Hh).
  pose proof (component_nonneg _ Hm). pose proof (component_nonneg _ Hs).
  nia.
Qed.

(** What [parse_time] makes of the captures of a match. *)
Lemma parse_time_groups (s : string) (caps : gmap string string)
    (gd gh gm gs : option string) :
  regex_match s = Some caps →
  caps !! "days"%string = gd → caps !! "hours"%string = gh →
  caps !! "minutes"%string = gm → caps !! "seconds"%string = gs →
  group_fits gd → group_fits gh → group_fits gm → group_fits gs →
  parse_time s
  = match timedelta_new
            (timedelta_of (component gd) (component gh) (component gm)
                          (component gs)) with
    | Ok td => Ok (Some td)
    | Raise e => Raise e
    end.
Proof.
  intros Hm <- <- <- <- [Hd Hd'] [Hh Hh'] [Hmi Hmi'] [Hs Hs'].
  unfold parse_time, groupdict. rewrite Hm. simpl map.
  rewrite !collect_ok_step by done. simpl.
  unfold timedelta_kwargs.
  destruct (caps !! "days"%string), (caps !! "hours"%string),
    (caps !! "minutes"%string), (caps !! "seconds"%string);
    by simplify_map_eq.
Qed.

(** The loop over the groups raises the ValueError of a numeral that is
    too long, or collects every group. *)
Lemma collect_outcome (items : list (string * option string)) :
  ∀ kw,
    Forall (λ item, group_ok item.2) items →
    collect_time_params items kw = Raise ValueError
    ∨ Forall (λ item, group_short item.2) items.
Proof.
  induction items as [|[name g] items IH]; intros kw Hok; [by right |].
  apply Forall_cons in Hok as [Hg Hok]. simpl in Hg.
  destruct g as [ds|].
  - destruct (decide (Z.of_nat (String.length ds) <= MAX_STR_DIGITS))
      as [Hs|Hs].
    + rewrite collect_ok_step by done.
      destruct (IH (<[name := numeral_value ds]> kw) Hok) as [?|?];
        [by left | right; by constructor].
    + left. by apply collect_long_step.
  - rewrite collect_ok_step by done.
    destruct (IH kw Hok) as [?|?]; [by left | right; by constructor].
Qed.

Lemma take_group_present (name unit ds rest : string)
    (caps : gmap string string) :
  unit_ok unit → number ds →
  take_group name unit (caps, (ds +:+ unit +:+ rest)%string)
  = (<[name := ds]> caps, rest).
Proof.
  intros Hu Hn. unfold take_group. simpl. by rewrite group_at_present.
Qed.


Lemma take_group_nil (name unit : string) (caps : gmap string string) :
  take_group name unit (caps, EmptyString) = (caps, EmptyString).
Proof. reflexivity. Qed.

Lemma take_group_none (name unit s : string) (caps : gmap string string) :
  group_at unit s = None → take_group name unit (caps, s) = (caps, s).
Proof. intros H. unfold take_group. simpl. by rewrite H. Qed.

Lemma no_group_none (s unit : string) :
  no_group_at_start s → unit ∈ ["d"; "hr"; "m"; "s"]%string →
  group_at unit s = None.
Proof.
  intros Hno Hin. destruct (group_at unit s) as [[ds rest]|] eqn:Hg; [|done].
  apply group_at_sound in Hg as [Hn ->]. by destruct (Hno ds unit rest).
Qed.




Lemma regex_match_no_group (s : string) :
  no_group_at_start s → regex_match s = Some ∅.
Proof.
  intros Hno. rewrite regex_match_seq.
  rewrite !take_group_none;
    [done | apply no_group_none; (done || set_solver) ..].
Qed.

Lemma timedelta_new_zero : timedelta_new (timedelta_of 0 0 0 0) = Ok 0.
Proof. reflexivity. Qed.

Lemma parse_time_no_group (text : string) :
  no_group_at_start text → parse_time text = Ok (Some 0).
Proof.
  intros Hno. apply regex_match_no_group in Hno.
  rewrite (parse_time_groups _ _ None None None None Hno); try done.
Qed.








(** ** The packet loop *)

Section Loop.
Variable connection : Connection.
Variables tag filename : string.
Variable endTime : datetime.
Variable delta : timedelta.
Variable average : bool.

Abbreviation body := (loop_body connection tag filename delta average).
Abbreviation loop :=
  (getTag_loop connection tag filename endTime delta average).
Abbreviation iter := (iterate_body connection tag filename delta average).

Lemma loop_body_cursor (d : datetime) (fs : FS) :
  (body d fs).1.1 = d + delta.
Proof. reflexivity. Qed.

Lemma loop_body_packet (d : datetime) (fs : FS) :
  (body d fs).2 = packet_at tag d delta 0.
Proof.
  unfold loop_body, packet_at. simpl.
  replace (d + Z.of_nat 0 * delta) with d by lia. reflexivity.
Qed.

Lemma packets_S (d : datetime) (n : nat) :
  packets tag d delta (S n)
  = packet_at tag d delta 0 :: packets tag (d + delta) delta n.
Proof.
  unfold packets. simpl. f_equal. rewrite <- seq_shift, map_map.
  apply map_ext. intros k. unfold packet_at.
  replace (d + Z.of_nat (S k) * delta)
    with (d + delta + Z.of_nat k * delta) by lia.
  reflexivity.
Qed.

Lemma iterate_body_cursor_log (n : nat) (d : datetime) (fs : FS)
    (log : list Packet) :
  (iter n d fs log).1.1 = d + Z.of_nat n * delta
  ∧ (iter n d fs log).2 = log ++ packets tag d delta n.
Proof.
  revert d fs log. induction n as [|n IH]; intros d fs log.
  - simpl. split; [lia | by rewrite app_nil_r].
  - cbn [iterate_body].
    destruct (body d fs) as [[d' fs'] p] eqn:Hb.
    pose proof (loop_body_cursor d fs) as Hc.
    pose proof (loop_body_packet d fs) as Hp.
    rewrite Hb in Hc, Hp. simpl in Hc, Hp. subst d' p.
    destruct (IH (d + delta) fs' (log ++ [packet_at tag d delta 0]))
      as [H1 H2].
    split; [rewrite H1; lia |].
    rewrite H2, packets_S, <- app_assoc. reflexivity.
Qed.

(** While the guard holds the loop does what the body does. *)
Lemma getTag_loop_unroll (k : nat) :
  ∀ (fuel : nat) (d : datetime) (fs : FS) (log : list Packet),
    (∀ i : nat, (i < k)%nat → d + Z.of_nat i * delta < endTime) →
    (k <= fuel)%nat →
    loop fuel d fs log
    = let '(d', fs', log') := iter k d fs log in
      loop (fuel - k) d' fs' log'.
Proof.
  induction k as [|k IH]; intros fuel d fs log Hguard Hfuel.
  - simpl. by rewrite Nat.sub_0_r.
  - destruct fuel as [|fuel]; [lia |].
    cbn [getTag_loop iterate_body].
    assert (Hd : d < endTime).
    { specialize (Hguard 0%nat). simpl in Hguard. lia. }
    apply Z.ltb_lt in Hd. rewrite Hd.
    destruct (body d fs) as [[d' fs'] p] eqn:Hb.
    pose proof (loop_body_cursor d fs) as Hc. rewrite Hb in Hc.
    simpl in Hc. subst d'.
    rewrite IH; [reflexivity | | lia].
    intros i Hi. specialize (Hguard (S i)). lia.
Qed.

(** The loop is still running when the guard has held as often as there
    is fuel. *)
Lemma getTag_loop_running (fuel : nat) :
  ∀ (d : datetime) (fs : FS) (log : list Packet),
    (∀ i : nat, (i <= fuel)%nat → d + Z.of_nat i * delta < endTime) →
    loop fuel d fs log = None.
Proof.
  induction fuel as [|fuel IH]; intros d fs log Hguard.
  - simpl. specialize (Hguard 0%nat).
    destruct (d <? endTime) eqn:Hd; [done |].
    apply Z.ltb_ge in Hd. lia.
  - cbn [getTag_loop].
    assert (Hd : d < endTime).
    { specialize (Hguard 0%nat). lia. }
    apply Z.ltb_lt in Hd. rewrite Hd.
    destruct (body d fs) as [[d' fs'] p] eqn:Hb.
    pose proof (loop_body_cursor d fs) as Hc. rewrite Hb in Hc.
    simpl in Hc. subst d'.
    apply IH. intros i Hi. specialize (Hguard (S i)). lia.
Qed.

Lemma getTag_loop_exit (fuel : nat) (d : datetime) (fs : FS)
    (log : list Packet) :
  endTime <= d → loop fuel d fs log = Some (fs, log).
Proof.
  intros Hd. apply Z.ltb_ge in Hd. destruct fuel; simpl; by rewrite Hd.
Qed.
End Loop.

(** ** The number of packets *)

Lemma ceil_div_spec (a b : Z) :
  0 < b → (ceil_div a b - 1) * b < a <= ceil_div a b * b.
Proof.
  intros Hb. unfold ceil_div.
  pose proof (Z.div_mod (a + b - 1) b ltac:(lia)) as Hdm.
  pose proof (Z.mod_pos_bound (a + b - 1) b Hb) as Hm.
  nia.
Qed.

Lemma ceil_div_unique (a b n : Z) :
  0 < b → (n - 1) * b < a <= n * b → n = ceil_div a b.
Proof.
  intros Hb Hn. pose proof (ceil_div_spec a b Hb) as Hc. nia.
Qed.

Lemma packet_count_pos (startTime endTime : datetime) (delta : timedelta) :
  0 < delta → startTime < endTime →
  (0 < packet_count startTime endTime delta)%nat.
Proof.
  intros Hd Hw. unfold packet_count.
  pose proof (ceil_div_spec (endTime - startTime) delta Hd) as Hc.
  assert (0 < ceil_div (endTime - startTime) delta) by nia. lia.
Qed.

(** The guard holds before each of the packets counted and fails after the
    last of them. *)
Lemma packet_count_guard (startTime endTime : datetime) (delta : timedelta) :
  0 < delta →
  let n := packet_count startTime endTime delta in
  (∀ i : nat, (i < n)%nat → startTime + Z.of_nat i * delta < endTime)
  ∧ endTime <= startTime + Z.of_nat n * delta.
Proof.
  intros Hd n. unfold n, packet_count.
  pose proof (ceil_div_spec (endTime - startTime) delta Hd) as Hc.
  split.
  - intros i Hi. nia.
  - destruct (Z.le_gt_cases 0 (ceil_div (endTime - startTime) delta)).
    + rewrite Z2Nat.id by done. lia.
    + assert (Z.to_nat (ceil_div (endTime - startTime) delta) = 0%nat)
        as -> by lia.
      nia.
Qed.

Section LoopCount.
Variable connection : Connection.
Variables tag filename : string.
Variable endTime : datetime.
Variable delta : timedelta.
Variable average : bool.

Abbreviation loop' :=
  (getTag_loop connection tag filename endTime delta average).
Abbreviation iter' := (iterate_body connection tag filename delta average).

(** With a positive packet size the loop ends after the packets counted,
    given the fuel for them. *)
Lemma getTag_loop_packets (fuel : nat) (d : datetime) (fs : FS)
    (log : list Packet) :
  0 < delta → (packet_count d endTime delta <= fuel)%nat →
  loop' fuel d fs log
  = Some ((iter' (packet_count d endTime delta) d fs log).1.2,
          log ++ packets tag d delta (packet_count d endTime delta)).
Proof.
  intros Hd Hfuel.
  destruct (packet_count_guard d endTime delta Hd) as [Hg Hend].
  rewrite (getTag_loop_unroll _ _ _ _ _ _ _ _ _ _ _ Hg Hfuel).
  destruct (iterate_body_cursor_log connection tag filename delta average
              (packet_count d endTime delta) d fs log) as [Hc Hl].
  destruct (iter' _ d fs log) as [[d' fs'] log'].
  simpl in *. subst d' log'. by rewrite getTag_loop_exit.
Qed.

Lemma getTag_loop_short (fuel : nat) (d : datetime) (fs : FS)
    (log : list Packet) :
  0 < delta → (fuel < packet_count d endTime delta)%nat →
  loop' fuel d fs log = None.
Proof.
  intros Hd Hfuel.
  destruct (packet_count_guard d endTime delta Hd) as [Hg _].
  apply getTag_loop_running. intros i Hi. apply Hg. lia.
Qed.

(** A packet size that is not positive never moves the cursor towards
    the end of a window that is not empty. *)
Lemma getTag_loop_forever (fuel : nat) (d : datetime) (fs : FS)
    (log : list Packet) :
  delta <= 0 → d < endTime → loop' fuel d fs log = None.
Proof.
  intros Hd Hw. apply getTag_loop_running. intros i Hi. nia.
Qed.
End LoopCount.

Lemma clamp_packet_size_le (startTime endTime : datetime)
    (requested : timedelta) :
  clamp_packet_size startTime endTime requested <= requested.
Proof.
  unfold clamp_packet_size.
  destruct (endTime - startTime <? requested) eqn:H; [|lia].
  apply Z.ltb_lt in H. lia.
Qed.

Lemma clamp_packet_size_zero (startTime endTime : datetime) :
  startTime <= endTime → clamp_packet_size startTime endTime 0 = 0.
Proof.
  intros H. unfold clamp_packet_size.
  destruct (endTime - startTime <? 0) eqn:E; [|done].
  apply Z.ltb_lt in E. lia.
Qed.

(** C9: for a window with start before end the packet loop of [getTag]
    comes to an end exactly when the packet size is positive, and then
    after ceil((end - start)/packetSize) iterations, no fewer; with the
    packet size zero it never ends.  [parse_time] gives the zero duration
    for a text in which no group is found, the clamp never raises a packet
    size and leaves zero at zero, so the main program with such a text for
    --psize never gets past its first tag. *)
Theorem getTag_loop_terminates_iff
    (connection : Connection) (tag filename : string)
    (startTime endTime : datetime) (packetsize : timedelta)
    (average : bool) (fs : FS) :
  startTime < endTime →
  let loop fuel :=
    getTag_loop connection tag filename endTime packetsize average
                fuel startTime fs [] in
  let n := packet_count startTime endTime packetsize in
  ((∃ fuel, is_Some (loop fuel)) ↔ 0 < packetsize)
  ∧ (0 < packetsize →
     (Z.of_nat n - 1) * packetsize < endTime - startTime
                                   <= Z.of_nat n * packetsize
     ∧ (∀ fuel, (n <= fuel)%nat →
                ∃ fs' log, loop fuel = Some (fs', log) ∧ length log = n)
     ∧ (∀ fuel, (fuel < n)%nat → loop fuel = None))
  ∧ (packetsize = 0 → ∀ fuel, loop fuel = None)
  ∧ (∀ text, no_group_at_start text → parse_time text = Ok (Some 0))
  ∧ (∀ requested,
        clamp_packet_size startTime endTime requested <= requested)
  ∧ clamp_packet_size startTime endTime 0 = 0
  ∧ (∀ text tags pave fuel,
        no_group_at_start text →
        main fuel connection (tag :: tags)
             {| cl_window := se startTime endTime; cl_psize := Some text;
                cl_pave := pave |} fs = None).
Proof.
  intros Hw loop n.
  refine (conj _ (conj _ (conj _ (conj _ (conj _ (conj _ _)))))).
  - split.
    + intros [fuel Hsome]. destruct (Z.lt_ge_cases 0 packetsize); [done |].
      unfold loop in Hsome. rewrite getTag_loop_forever in Hsome by lia.
      by destruct Hsome.
    + intros Hp. exists n. unfold loop.
      rewrite getTag_loop_packets by (done || lia). eauto.
  - intros Hp. refine (conj _ (conj _ _)).
    + pose proof (ceil_div_spec (endTime - startTime) packetsize Hp) as Hc.
      pose proof (packet_count_pos startTime endTime packetsize Hp Hw) as Hn.
      fold n in Hn. unfold n, packet_count in *.
      rewrite Z2Nat.id by lia. lia.
    + intros fuel Hfuel. unfold loop.
      rewrite getTag_loop_packets by done. do 2 eexists.
      split; [reflexivity |]. unfold packets.
      by rewrite length_app, length_map, length_seq.
    + intros fuel Hfuel. by apply getTag_loop_short.
  - intros -> fuel. apply getTag_loop_forever; lia.
  - apply parse_time_no_group.
  - apply clamp_packet_size_le.
  - apply clamp_packet_size_zero. lia.
  - intros text tags pave fuel Hno.
    unfold main, get_cli_args. simpl.
    rewrite (parse_time_no_group _ Hno). unfold main_args. simpl.
    assert ((endTime <? startTime) = false) as -> by (apply Z.ltb_ge; lia).
    rewrite clamp_packet_size_zero by lia.
    unfold getTag. rewrite getTag_loop_forever by lia. reflexivity.
Qed.

Lemma getTag_loop_terminates_iff_witness :
  datetime_of 2019 4 7 12 0 0 0 < datetime_of 2019 4 7 12 0 25 0
  ∧ ∃ fuel,
      is_Some (getTag_loop (λ _, Ok (recordset_of [])) "T1" "T1.txt"
                 (datetime_of 2019 4 7 12 0 25 0) (timedelta_of 0 0 0 10)
                 false fuel (datetime_of 2019 4 7 12 0 0 0) ∅ []).
Proof.
  split; [reflexivity |].
  apply (proj1 (getTag_loop_terminates_iff (λ _, Ok (recordset_of []))
                  "T1" "T1.txt" (datetime_of 2019 4 7 12 0 0 0)
                  (datetime_of 2019 4 7 12 0 25 0) (timedelta_of 0 0 0 10)
                  false ∅ ltac:(reflexivity))).
  reflexivity.
Defined.

(** ** The bounds of the packets *)

Lemma packet_at_shift (tag : string) (d : datetime) (delta : timedelta)
    (k : nat) :
  packet_at tag (d + delta) delta k = packet_at tag d delta (S k).
Proof.
  unfold packet_at.
  replace (d + delta + Z.of_nat k * delta)
    with (d + Z.of_nat (S k) * delta) by lia.
  reflexivity.
Qed.

Lemma packets_lookup (tag : string) (delta : timedelta) (n : nat) :
  ∀ (d : datetime) (k : nat) (p : Packet),
    packets tag d delta n !! k = Some p
    ↔ (k < n)%nat ∧ p = packet_at tag d delta k.
Proof.
  induction n as [|n IH]; intros d k p.
  - unfold packets. simpl. split; [done | lia].
  - rewrite packets_S. destruct k as [|k]; simpl.
    + split; [intros [= <-]; split; [lia | done] | by intros [_ ->]].
    + rewrite IH, packet_at_shift. split; intros [? ?]; split; (lia || done).
Qed.

Lemma packets_last (tag : string) (d : datetime) (delta : timedelta)
    (n : nat) :
  last (packets tag d delta (S n)) = Some (packet_at tag d delta n).
Proof.
  rewrite last_lookup.
  unfold packets at 1. rewrite length_map, length_seq. simpl.
  apply packets_lookup. split; [lia | done].
Qed.

Lemma strftime_trunc_sec (d : datetime) : strftime (trunc_sec d) = strftime d.
Proof.
  unfold strftime, trunc_sec. by rewrite Z.div_mul.
Qed.

Lemma trunc_sec_le (d : datetime) : trunc_sec d <= d < trunc_sec d + 1000000.
Proof.
  unfold trunc_sec.
  pose proof (Z.div_mod d 1000000 ltac:(lia)).
  pose proof (Z.mod_pos_bound d 1000000 ltac:(lia)). lia.
Qed.

Lemma trunc_sec_mono (d d' : datetime) :
  d <= d' → trunc_sec d <= trunc_sec d'.
Proof.
  intros H. unfold trunc_sec.
  pose proof (Z.div_le_mono d d' 1000000 ltac:(lia) H). lia.
Qed.

Lemma trunc_sec_whole (d : datetime) :
  d mod 1000000 = 0 → trunc_sec d = d.
Proof.
  intros H. unfold trunc_sec.
  pose proof (Z.div_mod d 1000000 ltac:(lia)). lia.
Qed.

Lemma whole_seconds_bound (startTime : datetime) (packetsize : timedelta)
    (k : nat) :
  startTime mod 1000000 = 0 → packetsize mod 1000000 = 0 →
  (startTime + Z.of_nat k * packetsize) mod 1000000 = 0.
Proof.
  intros Hs Hp.
  apply Z.mod_divide in Hs as [a ->]; [|lia].
  apply Z.mod_divide in Hp as [b ->]; [|lia].
  apply Z.mod_divide; [lia |].
  exists (a + Z.of_nat k * b). lia.
Qed.

(** C1, as the code has it: for a window with start before end and a
    positive packet size the loop of [getTag] makes the
    ceil((end - start)/packetSize) packets with the bounds
    start + k * packetSize and start + (k + 1) * packetSize.  They follow
    one another without a gap, every one of them has the size packetSize,
    the last one too; the last one ends at end or later and less than one
    packet size after it: at end when end - start is a multiple of the
    packet size and after end when it is not.  As intervals that leave out
    their upper bound they cover every instant of the window exactly once.
    The two texts of a query denote the bounds cut to whole seconds and
    the query includes both of them, so the queries of two packets that
    follow one another both ask for the whole second of the bound between
    them.  When start and the packet size are whole seconds, the bounds
    are in the queries as they are: then the queries of two packets that
    follow one another both ask for the instant between them, and the
    query of the last packet runs beyond end whenever end - start is not
    a multiple of the packet size. *)
Theorem getTag_packets_partition
    (connection : Connection) (tag filename : string)
    (startTime endTime : datetime) (packetsize : timedelta)
    (average : bool) (fs : FS) :
  startTime < endTime → 0 < packetsize →
  let n := packet_count startTime endTime packetsize in
  let log := packets tag startTime packetsize n in
  (∃ fs', getTag_loop connection tag filename endTime packetsize average
            n startTime fs [] = Some (fs', log))
  ∧ (0 < n)%nat ∧ length log = n
  ∧ (∀ (k : nat) p, log !! k = Some p →
       p_lo p = startTime + Z.of_nat k * packetsize
       ∧ p_hi p - p_lo p = packetsize
       ∧ p_query p = {| q_tag := tag; q_start := strftime (p_lo p);
                        q_end := strftime (p_hi p) |})
  ∧ (∀ (k : nat) p p', log !! k = Some p → log !! S k = Some p' →
       p_lo p' = p_hi p)
  ∧ (∀ p, last log = Some p → endTime <= p_hi p < endTime + packetsize)
  ∧ (∀ t, startTime <= t < endTime →
       ∃ (k : nat) p,
         log !! k = Some p ∧ p_lo p <= t < p_hi p
         ∧ ∀ (k' : nat) p', log !! k' = Some p' → p_lo p' <= t < p_hi p' →
                            k' = k)
  ∧ (∀ (k : nat) p p', log !! k = Some p → log !! S k = Some p' →
       in_query_range (trunc_sec (p_hi p)) p
       ∧ in_query_range (trunc_sec (p_hi p)) p')
  ∧ (∀ d, strftime (trunc_sec d) = strftime d)
  ∧ (∀ p, last log = Some p →
       ((endTime - startTime) mod packetsize = 0 → p_hi p = endTime)
       ∧ ((endTime - startTime) mod packetsize ≠ 0 → endTime < p_hi p))
  ∧ (startTime mod 1000000 = 0 → packetsize mod 1000000 = 0 →
     (∀ (k : nat) p, log !! k = Some p →
        trunc_sec (p_lo p) = p_lo p ∧ trunc_sec (p_hi p) = p_hi p)
     ∧ (∀ (k : nat) p p', log !! k = Some p → log !! S k = Some p' →
          in_query_range (p_hi p) p ∧ in_query_range (p_hi p) p')
     ∧ (∀ p, last log = Some p →
          (endTime - startTime) mod packetsize ≠ 0 →
          endTime < p_hi p ∧ in_query_range (p_hi p) p)).
Proof.
  intros Hw Hp n log.
  pose proof (packet_count_pos startTime endTime packetsize Hp Hw) as Hn.
  destruct (packet_count_guard startTime endTime packetsize Hp) as [Hg Hend].
  fold n in Hn, Hg, Hend.
  assert (Hlast : ∀ p, last log = Some p →
            ((endTime - startTime) mod packetsize = 0 → p_hi p = endTime)
            ∧ ((endTime - startTime) mod packetsize ≠ 0 →
               endTime < p_hi p)).
  { intros p Hl. unfold log in Hl.
    destruct n as [|m]; [lia |].
    rewrite packets_last in Hl. injection Hl as <-. simpl.
    specialize (Hg m ltac:(lia)). split.
    - intros Hm. apply Z.mod_divide in Hm as [q Hq]; [|lia].
      rewrite Nat2Z.inj_succ in Hend.
      assert (Z.of_nat m < q) by nia.
      assert (q <= Z.of_nat m + 1) by nia.
      assert (q = Z.of_nat m + 1) by lia. subst q. lia.
    - intros Hm.
      destruct (Z.eq_dec endTime
                  (startTime + Z.of_nat m * packetsize + packetsize))
        as [Heq|Hne]; [|lia].
      exfalso. apply Hm.
      replace (endTime - startTime) with (Z.of_nat (S m) * packetsize)
        by lia.
      apply Z.mod_mul. lia. }
  assert (Hwhole : startTime mod 1000000 = 0 → packetsize mod 1000000 = 0 →
            ∀ (k : nat) p, log !! k = Some p →
              trunc_sec (p_lo p) = p_lo p ∧ trunc_sec (p_hi p) = p_hi p).
  { intros Hs Hps k p Hk. apply packets_lookup in Hk as [Hk ->]. simpl.
    split; apply trunc_sec_whole.
    - by apply whole_seconds_bound.
    - replace (startTime + Z.of_nat k * packetsize + packetsize)
        with (startTime + Z.of_nat (S k) * packetsize) by lia.
      by apply whole_seconds_bound. }
  refine (conj _ (conj Hn (conj _ (conj _ (conj _ (conj _ (conj _
            (conj _ (conj strftime_trunc_sec (conj Hlast _)))))))))).
  - rewrite getTag_loop_packets by (done || (fold n; lia)). fold n. eauto.
  - unfold log, packets. by rewrite length_map, length_seq.
  - intros k p Hk. apply packets_lookup in Hk as [Hk ->]. simpl.
    split; [done |]. split; [lia | done].
  - intros k p p' Hk Hk'.
    apply packets_lookup in Hk as [Hk ->], Hk' as [Hk' ->]. simpl. lia.
  - intros p Hl. unfold log in Hl.
    destruct n as [|m]; [lia |].
    rewrite packets_last in Hl. injection Hl as <-. simpl.
    specialize (Hg m ltac:(lia)). lia.
  - intros t [Ht1 Ht2].
    set (q := (t - startTime) / packetsize).
    pose proof (Z.div_mod (t - startTime) packetsize ltac:(lia)) as Hdm.
    pose proof (Z.mod_pos_bound (t - startTime) packetsize Hp) as Hm.
    fold q in Hdm.
    assert (Hq0 : 0 <= q) by (apply Z.div_pos; lia).
    assert (Hqn : (Z.to_nat q < n)%nat).
    { destruct (Nat.lt_ge_cases (Z.to_nat q) n) as [|Hge]; [done |].
      exfalso. assert (Z.of_nat n <= q) by lia. nia. }
    exists (Z.to_nat q), (packet_at tag startTime packetsize (Z.to_nat q)).
    split; [by apply packets_lookup |]. simpl. rewrite Z2Nat.id by done.
    split; [nia |].
    intros k' p' Hk' Hin. apply packets_lookup in Hk' as [Hk' ->].
    simpl in Hin. assert (Z.of_nat k' = q) by nia. lia.
  - intros k p p' Hk Hk'.
    apply packets_lookup in Hk as [Hk ->], Hk' as [Hk' ->].
    unfold in_query_range. simpl.
    replace (startTime + Z.of_nat (S k) * packetsize)
      with (startTime + Z.of_nat k * packetsize + packetsize) by lia.
    split; (split; [apply trunc_sec_mono; lia | apply trunc_sec_mono; lia]).
  - intros Hs Hps. split; [by apply Hwhole |]. split.
    + intros k p p' Hk Hk'.
      destruct (Hwhole Hs Hps k p Hk) as [H1 H2].
      destruct (Hwhole Hs Hps (S k) p' Hk') as [H3 H4].
      apply packets_lookup in Hk as [Hk ->], Hk' as [Hk' ->].
      unfold in_query_range. simpl in *. rewrite H1, H2, H3, H4. lia.
    + intros p Hl Hm. split; [by apply Hlast |].
      assert (Hin : ∃ k : nat, log !! k = Some p).
      { rewrite last_lookup in Hl. eauto. }
      destruct Hin as [k Hk].
      destruct (Hwhole Hs Hps k p Hk) as [H1 H2].
      apply packets_lookup in Hk as [Hk ->].
      unfold in_query_range. simpl in *. rewrite H1, H2. lia.
Qed.

Lemma getTag_packets_partition_witness :
  datetime_of 2019 4 7 12 0 0 0 < datetime_of 2019 4 7 12 0 25 0
  ∧ 0 < timedelta_of 0 0 0 10
  ∧ length (packets "T1" (datetime_of 2019 4 7 12 0 0 0)
              (timedelta_of 0 0 0 10)
              (packet_count (datetime_of 2019 4 7 12 0 0 0)
                 (datetime_of 2019 4 7 12 0 25 0) (timedelta_of 0 0 0 10)))
    = packet_count (datetime_of 2019 4 7 12 0 0 0)
        (datetime_of 2019 4 7 12 0 25 0) (timedelta_of 0 0 0 10).
Proof.
  split; [reflexivity |]. split; [reflexivity |].
  apply (getTag_packets_partition (λ _, Raise ProviderError) "T1" "T1.txt"
           (datetime_of 2019 4 7 12 0 0 0) (datetime_of 2019 4 7 12 0 25 0)
           (timedelta_of 0 0 0 10) false ∅ ltac:(reflexivity)
           ltac:(reflexivity)).
Defined.

(** The window from 12:00:00 to 12:00:25 in packets of 10 seconds: the
    loop makes three packets; the query of the third one runs to 12:00:30,
    beyond the end of the window, and the instant 12:00:10 is asked for by
    the queries of the first and of the second packet. *)
Lemma getTag_packets_overshoot :
  let startTime := datetime_of 2019 4 7 12 0 0 0 in
  let endTime := datetime_of 2019 4 7 12 0 25 0 in
  ∃ fs' p1 p2 p3,
    getTag_loop (λ _, Ok (recordset_of [])) "T1" "T1.txt" endTime
      (timedelta_of 0 0 0 10) false 3 startTime ∅ []
    = Some (fs', [p1; p2; p3])
    ∧ q_end (p_query p3) = "07.04.2019  12:00:30"%string
    ∧ endTime < trunc_sec (p_hi p3)
    ∧ in_query_range (datetime_of 2019 4 7 12 0 10 0) p1
    ∧ in_query_range (datetime_of 2019 4 7 12 0 10 0) p2.
Proof.
  intros startTime endTime.
  rewrite getTag_loop_packets by (vm_compute; (reflexivity || lia)).
  assert (Hn : packet_count startTime endTime (timedelta_of 0 0 0 10) = 3%nat)
    by (vm_compute; reflexivity).
  rewrite Hn. do 4 eexists. split; [reflexivity |].
  vm_compute. split_and!; (reflexivity || discriminate).
Qed.

(** The window from 12:00:00.9 to 12:00:20.5 in packets of 10 seconds: the
    loop makes two packets; the second one ends at 12:00:20.9, after the end
    of the window, but its query runs to 12:00:20 only; the first query
    runs to 12:00:10 and the second one starts there, so that both ask for
    the second 12:00:10 and neither of them says the instant 12:00:10.9
    between the packets. *)
Lemma getTag_packets_fraction :
  let startTime := datetime_of 2019 4 7 12 0 0 900000 in
  let endTime := datetime_of 2019 4 7 12 0 20 500000 in
  ∃ fs' p1 p2,
    getTag_loop (λ _, Ok (recordset_of [])) "T1" "T1.txt" endTime
      (timedelta_of 0 0 0 10) false 2 startTime ∅ []
    = Some (fs', [p1; p2])
    ∧ p_hi p1 = datetime_of 2019 4 7 12 0 10 900000
    ∧ p_lo p2 = datetime_of 2019 4 7 12 0 10 900000
    ∧ p_hi p2 = datetime_of 2019 4 7 12 0 20 900000
    ∧ q_end (p_query p1) = "07.04.2019  12:00:10"%string
    ∧ q_start (p_query p2) = "07.04.2019  12:00:10"%string
    ∧ q_end (p_query p2) = "07.04.2019  12:00:20"%string
    ∧ trunc_sec (p_hi p2) < endTime
    ∧ in_query_range (datetime_of 2019 4 7 12 0 10 0) p1
    ∧ in_query_range (datetime_of 2019 4 7 12 0 10 0) p2
    ∧ ¬ in_query_range (p_hi p1) p1.
Proof.
  intros startTime endTime.
  rewrite getTag_loop_packets by (vm_compute; (reflexivity || lia)).
  assert (Hn : packet_count startTime endTime (timedelta_of 0 0 0 10) = 2%nat)
    by (vm_compute; reflexivity).
  rewrite Hn. do 3 eexists. split; [reflexivity |].
  vm_compute. split_and!; try reflexivity; try discriminate.
  intros [_ H]. by apply H.
Qed.

(** ** The clamp of the packet size *)

Lemma packet_count_one (startTime endTime : datetime) :
  startTime < endTime →
  packet_count startTime endTime (endTime - startTime) = 1%nat.
Proof.
  intros Hw. unfold packet_count.
  rewrite <- (ceil_div_unique (endTime - startTime) (endTime - startTime) 1);
    [done | lia | lia].
Qed.

(** C6, as the code has it: when the window is not empty and shorter than
    the packet size asked for, the main program lowers the packet size to
    end - start and goes on to the extraction, with no error; the loop of
    [getTag] then makes one packet, from start to end, whatever fuel it
    has beyond one iteration.  A window of 5 minutes with a packet size of
    one day has the packet size 5 minutes. *)
Theorem clamp_single_packet
    (connection : Connection) (tag filename : string)
    (startTime endTime : datetime) (requested : timedelta)
    (average : bool) (fs : FS) :
  startTime < endTime → endTime - startTime < requested →
  let packet_size := clamp_packet_size startTime endTime requested in
  packet_size = endTime - startTime
  ∧ (∀ fuel tags,
        main_args fuel connection tags
          {| subparser := se startTime endTime; psize := Some requested;
             pave := average |} fs
        = extract_data fuel connection tags startTime endTime
            (endTime - startTime) average fs [])
  ∧ (∀ fuel, (1 <= fuel)%nat →
        ∃ fs',
          getTag_loop connection tag filename endTime packet_size average
            fuel startTime fs []
          = Some (fs', [ {| p_lo := startTime; p_hi := endTime;
                            p_query := {| q_tag := tag;
                                          q_start := strftime startTime;
                                          q_end := strftime endTime |} |} ]))
  ∧ clamp_packet_size (datetime_of 2019 4 7 12 0 0 0)
      (datetime_of 2019 4 7 12 5 0 0) (timedelta_of 1 0 0 0)
    = timedelta_of 0 0 5 0.
Proof.
  intros Hw Hlt packet_size.
  assert (Hps : packet_size = endTime - startTime).
  { unfold packet_size, clamp_packet_size.
    apply Z.ltb_lt in Hlt. by rewrite Hlt. }
  refine (conj Hps (conj _ (conj _ _))).
  - intros fuel tags. unfold main_args. simpl.
    assert ((endTime <? startTime) = false) as -> by (apply Z.ltb_ge; lia).
    fold packet_size. by rewrite Hps.
  - intros fuel Hfuel. rewrite Hps.
    rewrite getTag_loop_packets; rewrite ?packet_count_one by done;
      [| lia | done].
    eexists. f_equal. f_equal. unfold packets, packet_at. simpl.
    replace (startTime + Z.of_nat 0 * (endTime - startTime))
      with startTime by lia.
    replace (startTime + (endTime - startTime)) with endTime by lia.
    reflexivity.
  - reflexivity.
Qed.

Lemma clamp_single_packet_witness :
  datetime_of 2019 4 7 12 0 0 0 < datetime_of 2019 4 7 12 5 0 0
  ∧ datetime_of 2019 4 7 12 5 0 0 - datetime_of 2019 4 7 12 0 0 0
    < timedelta_of 1 0 0 0
  ∧ clamp_packet_size (datetime_of 2019 4 7 12 0 0 0)
      (datetime_of 2019 4 7 12 5 0 0) (timedelta_of 1 0 0 0)
    = datetime_of 2019 4 7 12 5 0 0 - datetime_of 2019 4 7 12 0 0 0.
Proof.
  split; [reflexivity |]. split; [reflexivity |].
  apply (clamp_single_packet (λ _, Ok (recordset_of [])) "T1" "T1.txt"
           (datetime_of 2019 4 7 12 0 0 0) (datetime_of 2019 4 7 12 5 0 0)
           (timedelta_of 1 0 0 0) false ∅ ltac:(reflexivity)
           ltac:(reflexivity)).
Defined.

(** The empty window from 12:00:00 to 12:00:00 is shorter than the packet
    size of one day and passes the check of the main program; the packet
    size becomes zero and the loop makes no packet at all. *)
Lemma clamp_empty_window_no_packet :
  let startTime := datetime_of 2019 4 7 12 0 0 0 in
  let endTime := datetime_of 2019 4 7 12 0 0 0 in
  let requested := timedelta_of 1 0 0 0 in
  endTime - startTime < requested
  ∧ (endTime <? startTime) = false
  ∧ clamp_packet_size startTime endTime requested = 0
  ∧ getTag_loop (λ _, Ok (recordset_of [])) "T1" "T1.txt" endTime
      (clamp_packet_size startTime endTime requested) false 1 startTime ∅ []
    = Some (∅, []).
Proof. vm_compute. split_and!; reflexivity. Qed.

(** ** The export of a packet *)

Lemma open_write (fs : FS) (filename : string) (line : Line) :
  write_line
    (open_file fs filename (if isfile fs filename then mode_a else mode_w))
    filename line
  = <[filename := default [] (fs !! filename) ++ [line]]> fs.
Proof.
  unfold write_line, open_file, isfile.
  destruct (fs !! filename) as [content|] eqn:Hf; simpl.
  - by rewrite Hf.
  - by rewrite lookup_insert_eq, insert_insert_eq.
Qed.

Lemma open_existing_or_new (fs : FS) (filename : string) :
  open_file fs filename (if isfile fs filename then mode_a else mode_w)
  = match fs !! filename with
    | Some _ => fs
    | None => <[filename := []]> fs
    end.
Proof.
  unfold open_file, isfile. by destruct (fs !! filename) eqn:Hf; rewrite ?Hf.
Qed.

Lemma average_fold (rows : list Row) :
  ∀ (t : option string) (a : float) (n : Z),
    fold_left average_step rows (t, a, n)
    = (match last rows with Some r => Some (r_tag r) | None => t end,
       fold_left PrimFloat.add (map r_value rows) a,
       n + Z.of_nat (length rows)).
Proof.
  induction rows as [|r rows IH]; intros t a n.
  - simpl. f_equal. lia.
  - cbn [fold_left average_step map length]. rewrite IH.
    f_equal; [f_equal |].
    + destruct rows as [|r' rows]; [done |]. rewrite last_cons_cons.
      destruct (last (r' :: rows)) eqn:Hl; [done |].
      by apply last_None in Hl.
    + lia.
Qed.

Lemma recordset_of_rows (rows : list Row) :
  rows ≠ [] →
  BOF (recordset_of rows) = false ∧ EOF (recordset_of rows) = false
  ∧ GetRows (recordset_of rows) = rows.
Proof. by destruct rows. Qed.

(** A record set with rows: one line with the tag of the last row and the
    mean of the values. *)
Lemma export_average_rows (rows : list Row) (r : Row) (filename : string)
    (action : mode) (a_date : string) (fs : FS) :
  last rows = Some r →
  export_average (recordset_of rows) filename action a_date fs
  = (write_line (open_file fs filename action) filename
       {| l_tag := r_tag r; l_time := a_date;
          l_value := arithmetic_mean (map r_value rows) |}, Ok tt).
Proof.
  intros Hlast.
  assert (Hne : rows ≠ []) by (by intros ->).
  destruct (recordset_of_rows rows Hne) as (Hb & He & Hr).
  unfold export_average. rewrite Hb, He, Hr. simpl.
  rewrite average_fold, Hlast.
  assert (Hlen : (0 + Z.of_nat (length rows) =? 0) = false).
  { apply Z.eqb_neq. destruct rows; [done |]. simpl. lia. }
  rewrite Hlen. unfold arithmetic_mean. by rewrite length_map, Z.add_0_l.
Qed.

(** A record set without rows: the file is opened and nothing else
    happens. *)
Lemma export_average_no_rows (filename : string) (action : mode)
    (a_date : string) (fs : FS) :
  export_average (recordset_of []) filename action a_date fs
  = (open_file fs filename action, Ok tt).
Proof. reflexivity. Qed.


(** The division by zero needs a record set that denies both end markers
    and then has no row. *)
Lemma export_average_zero_division (filename : string) (action : mode)
    (a_date : string) (fs : FS) :
  export_average {| BOF := false; EOF := false; GetRows := [] |}
    filename action a_date fs
  = (open_file fs filename action, Raise ZeroDivisionError).
Proof. reflexivity. Qed.

Lemma timedelta_truediv_even (delta : timedelta) :
  Z.even delta = true → timedelta_truediv delta 2 = delta / 2.
Proof.
  intros He. unfold timedelta_truediv, divide_and_round.
  rewrite Zmod_even, He. reflexivity.
Qed.

(** C3: in averaging mode an iteration whose query returns rows, the last
    of them [r], adds exactly one line to the output file: the tag of [r],
    the text of the cursor after the step minus half the packet size, and
    the arithmetic mean of the values of all the rows.  For a packet size
    of an even number of microseconds, so for every whole number of
    seconds, that instant is the middle of the packet.  The rows 1.0, 2.0,
    3.0 of the packet from 12:00:00 to 12:10:00 give the value 2.0 at
    12:05:00. *)
Theorem export_average_packet
    (connection : Connection) (tag filename : string) (delta : timedelta)
    (d : datetime) (fs : FS) (rows : list Row) (r : Row) :
  connection {| q_tag := tag; q_start := strftime d;
                q_end := strftime (d + delta) |} = Ok (recordset_of rows) →
  last rows = Some r →
  let line := {| l_tag := r_tag r;
                 l_time := strftime (d + delta - timedelta_truediv delta 2);
                 l_value := arithmetic_mean (map r_value rows) |} in
  loop_body connection tag filename delta true d fs
  = (d + delta,
     <[filename := default [] (fs !! filename) ++ [line]]> fs,
     packet_at tag d delta 0)
  ∧ (Z.even delta = true →
     2 * (d + delta - timedelta_truediv delta 2) = d + (d + delta))
  ∧ arithmetic_mean [1; 2; 3]%float = 2%float
  ∧ strftime (datetime_of 2019 4 7 12 10 0 0
              - timedelta_truediv (timedelta_of 0 0 10 0) 2)
    = "07.04.2019  12:05:00"%string.
Proof.
  intros Hq Hlast line.
  refine (conj _ (conj _ (conj _ _))).
  - pose proof (loop_body_packet connection tag filename delta true d fs)
      as Hp.
    unfold loop_body in *. simpl in Hp. rewrite <- Hp. f_equal. f_equal.
    unfold try_block, adodb_query. rewrite Hq.
    rewrite (export_average_rows _ _ _ _ _ _ Hlast). simpl.
    apply open_write.
  - intros He. rewrite timedelta_truediv_even by done.
    pose proof (Zmod_even delta) as Hm. rewrite He in Hm.
    pose proof (Z.div_mod delta 2 ltac:(lia)). lia.
  - reflexivity.
  - reflexivity.
Qed.

Lemma export_average_packet_witness :
  let connection : Connection :=
    λ _, Ok (recordset_of
               [ {| r_tag := "T1"; r_time := "07.04.2019 12:01:00.000";
                    r_value := 1 |};
                 {| r_tag := "T1"; r_time := "07.04.2019 12:02:00.000";
                    r_value := 2 |};
                 {| r_tag := "T1"; r_time := "07.04.2019 12:03:00.000";
                    r_value := 3 |} ]) in
  loop_body connection "T1" "T1.txt" (timedelta_of 0 0 10 0) true
    (datetime_of 2019 4 7 12 0 0 0) ∅
  = (datetime_of 2019 4 7 12 0 0 0 + timedelta_of 0 0 10 0,
     <["T1.txt"%string :=
         [ {| l_tag := "T1";
              l_time := strftime (datetime_of 2019 4 7 12 0 0 0
                                  + timedelta_of 0 0 10 0
                                  - timedelta_truediv (timedelta_of 0 0 10 0) 2);
              l_value := arithmetic_mean [1; 2; 3]%float |} ]]> ∅,
     packet_at "T1" (datetime_of 2019 4 7 12 0 0 0) (timedelta_of 0 0 10 0) 0).
Proof.
  intros connection.
  exact (proj1 (export_average_packet connection "T1" "T1.txt"
                  (timedelta_of 0 0 10 0) (datetime_of 2019 4 7 12 0 0 0) ∅
                  _ _ eq_refl eq_refl)).
Defined.

(** C4, as the code has it: in averaging mode, for a packet whose query
    returns no sample, [export_average] finds both end markers of the
    record set set and leaves the averaging out: it divides nothing, raises
    nothing and writes nothing; the output file is created empty when it
    did not exist and is left as it was otherwise. *)
Theorem export_average_empty_packet
    (connection : Connection) (tag filename : string) (delta : timedelta)
    (d : datetime) (fs : FS) :
  connection {| q_tag := tag; q_start := strftime d;
                q_end := strftime (d + delta) |} = Ok (recordset_of []) →
  (∀ action a_date,
      export_average (recordset_of []) filename action a_date fs
      = (open_file fs filename action, Ok tt))
  ∧ loop_body connection tag filename delta true d fs
    = (d + delta,
       match fs !! filename with
       | Some _ => fs
       | None => <[filename := []]> fs
       end,
       packet_at tag d delta 0).
Proof.
  intros Hq. split; [intros; apply export_average_no_rows |].
  pose proof (loop_body_packet connection tag filename delta true d fs) as Hp.
  unfold loop_body in *. simpl in Hp. rewrite <- Hp. f_equal. f_equal.
  unfold try_block, adodb_query. rewrite Hq, export_average_no_rows. simpl.
  apply open_existing_or_new.
Qed.

Lemma export_average_empty_packet_witness :
  loop_body (λ _, Ok (recordset_of [])) "T1" "T1.txt" (timedelta_of 0 0 10 0)
    true (datetime_of 2019 4 7 12 0 0 0) ∅
  = (datetime_of 2019 4 7 12 0 0 0 + timedelta_of 0 0 10 0,
     <["T1.txt"%string := []]> ∅,
     packet_at "T1" (datetime_of 2019 4 7 12 0 0 0) (timedelta_of 0 0 10 0) 0).
Proof.
  exact (proj2 (export_average_empty_packet (λ _, Ok (recordset_of []))
                  "T1" "T1.txt" (timedelta_of 0 0 10 0)
                  (datetime_of 2019 4 7 12 0 0 0) ∅ eq_refl)).
Defined.

(** The packet from 12:00:00 to 12:10:00 with a query that returns no
    sample, in averaging mode: the export ends without an exception. *)
Lemma export_average_empty_no_error :
  export_average (recordset_of []) "T1.txt" mode_w "07.04.2019  12:05:00" ∅
  = (<["T1.txt"%string := []]> ∅, Ok tt)
  ∧ (export_average (recordset_of []) "T1.txt" mode_w
       "07.04.2019  12:05:00" ∅).2 ≠ Raise ZeroDivisionError
  ∧ try_block (λ _, Ok (recordset_of [])) "T1" "T1.txt"
      (timedelta_of 0 0 10 0) true "07.04.2019  12:00:00"
      "07.04.2019  12:10:00" (datetime_of 2019 4 7 12 10 0 0) mode_w ∅
    = (<["T1.txt"%string := []]> ∅, Ok tt).
Proof. split_and!; (reflexivity || discriminate). Qed.

(** ** The trace of the calls *)

Section Traced.
Variable connection : Connection.
Variables tag filename : string.
Variable endTime : datetime.
Variable delta : timedelta.
Variable average : bool.

Lemma try_block_traced_once (date1 date2 : string) (d : datetime)
    (action : mode) (trace : list Query) (fs : FS) :
  try_block_traced connection tag filename delta average date1 date2 d
    action trace fs
  = (trace ++ [ {| q_tag := tag; q_start := date1; q_end := date2 |} ],
     (try_block connection tag filename delta average date1 date2 d action
        fs).1,
     (try_block connection tag filename delta average date1 date2 d action
        fs).2).
Proof.
  unfold try_block_traced, try_block, adodb_query_traced, adodb_query,
    Execute.
  destruct (connection _) as [rs|e]; [|done].
  by destruct (if average then _ else _).
Qed.

Lemma loop_body_traced_once (d : datetime) (trace : list Query) (fs : FS) :
  loop_body_traced connection tag filename delta average d trace fs
  = let '(d', fs', p) :=
      loop_body connection tag filename delta average d fs in
    (d', trace ++ [p_query p], fs', p).
Proof.
  unfold loop_body_traced, loop_body. rewrite try_block_traced_once.
  reflexivity.
Qed.

(** The trace of the loop grows by the queries of its packets. *)
Lemma getTag_loop_traced_log (fuel : nat) :
  ∀ (d : datetime) (trace : list Query) (fs : FS) (log : list Packet),
    getTag_loop_traced connection tag filename endTime delta average fuel d
      (trace ++ map p_query log) fs log
    = match getTag_loop connection tag filename endTime delta average fuel
              d fs log with
      | Some (fs', log') => Some (trace ++ map p_query log', fs', log')
      | None => None
      end.
Proof.
  induction fuel as [|fuel IH]; intros d trace fs log.
  - simpl. by destruct (d <? endTime).
  - cbn [getTag_loop_traced getTag_loop].
    destruct (d <? endTime); [|done].
    rewrite loop_body_traced_once.
    destruct (loop_body _ _ _ _ _ _ _) as [[d' fs'] p].
    rewrite <- IH. rewrite map_app, app_assoc. reflexivity.
Qed.
End Traced.

Lemma getTag_traced_log (fuel : nat) (connection : Connection)
    (trace : list Query) (fs : FS) (tag : string)
    (startTime endTime : datetime) (id : string) (packetsize : timedelta)
    (average : bool) :
  getTag_traced fuel connection trace fs tag startTime endTime id packetsize
    average
  = match getTag fuel connection fs tag startTime endTime id packetsize
            average with
    | Some (fs', log, r) => Some (trace ++ map p_query log, fs', log, r)
    | None => None
    end.
Proof.
  unfold getTag_traced, getTag.
  pose proof (getTag_loop_traced_log connection tag (filename_of id tag)
                endTime packetsize average fuel startTime trace fs []) as H.
  simpl in H. rewrite app_nil_r in H. rewrite H.
  destruct (getTag_loop _ _ _ _ _ _ _ _ _ _) as [[fs' log]|]; [|done].
  by destruct (getTag_finish _ _).
Qed.

(** A traced run is the run with the trace added: the files, the printed
    lines and the result are the same, and the trace only grows. *)
Lemma extract_data_traced_untraced (fuel : nat) (connection : Connection)
    (start stop : datetime) (packetsize : timedelta) (average : bool)
    (tags : list string) :
  ∀ trace fs out,
    untraced (extract_data_traced fuel connection trace tags start stop
                packetsize average fs out)
    = extract_data fuel connection tags start stop packetsize average fs out
    ∧ ∀ trace' fs' out' r,
        extract_data_traced fuel connection trace tags start stop packetsize
          average fs out = Some (trace', fs', out', r) →
        ∃ sent, trace' = trace ++ sent.
Proof.
  induction tags as [|tag tags IH]; intros trace fs out.
  - split; [done |]. intros ? ? ? ? [= <- _ _ _]. exists [].
    by rewrite app_nil_r.
  - cbn [extract_data_traced extract_data]. rewrite getTag_traced_log.
    destruct (getTag _ _ _ _ _ _ _ _ _) as [[[fs1 log] [isEmpty|e]]|];
      [| |done].
    + destruct (IH (trace ++ map p_query log) fs1
                  (out ++ [ {| rep_start := start; rep_stop := stop;
                               rep_tag := tag;
                               rep_verdict := if isEmpty then "Empty"
                                              else "Signal" |} ]))
        as [H1 H2].
      split; [done |]. intros trace' fs' out' r Hrun.
      apply H2 in Hrun as [sent ->]. exists (map p_query log ++ sent).
      by rewrite app_assoc.
    + split; [done |]. intros ? ? ? ? [= <- _ _ _]. eauto.
Qed.

Lemma main_args_traced_untraced (fuel : nat) (connection : Connection)
    (trace : list Query) (tags : list string) (args : Args) (fs : FS) :
  untraced (main_args_traced fuel connection trace tags args fs)
  = main_args fuel connection tags args fs.
Proof.
  unfold main_args_traced, main_args.
  destruct (resolve_window (subparser args)) as [[start end_]|e]; [|done].
  destruct (end_ <? start); [done |].
  destruct (psize args) as [packet_size|]; [|done].
  apply extract_data_traced_untraced.
Qed.

Lemma main_traced_untraced (fuel : nat) (connection : Connection)
    (trace : list Query) (tags : list string) (cl : CommandLine) (fs : FS) :
  untraced (main_traced fuel connection trace tags cl fs)
  = main fuel connection tags cl fs.
Proof.
  unfold main_traced, main.
  destruct (get_cli_args cl) as [args|e]; [|done].
  apply main_args_traced_untraced.
Qed.

(** ** Errors inside a packet *)

Lemma getTag_loop_step (connection : Connection) (tag filename : string)
    (endTime : datetime) (delta : timedelta) (average : bool)
    (fuel : nat) (d : datetime) (fs : FS) (log : list Packet) :
  d < endTime →
  getTag_loop connection tag filename endTime delta average (S fuel) d fs log
  = getTag_loop connection tag filename endTime delta average fuel
      (d + delta)
      (loop_body connection tag filename delta average d fs).1.2
      (log ++ [packet_at tag d delta 0]).
Proof.
  intros Hd. apply Z.ltb_lt in Hd. cbn [getTag_loop]. rewrite Hd.
  pose proof (loop_body_cursor connection tag filename delta average d fs)
    as Hc.
  pose proof (loop_body_packet connection tag filename delta average d fs)
    as Hp.
  destruct (loop_body _ _ _ _ _ d fs) as [[d' fs'] p].
  simpl in *. by subst.
Qed.

(** The packets of the loop depend neither on the connection, nor on the
    mode, nor on the files. *)
Lemma getTag_loop_log_independent
    (connection connection' : Connection) (tag filename filename' : string)
    (endTime : datetime) (delta : timedelta) (average average' : bool)
    (fuel : nat) :
  ∀ (d : datetime) (fs fs' : FS) (log : list Packet),
    snd <$> getTag_loop connection tag filename endTime delta average
              fuel d fs log
    = snd <$> getTag_loop connection' tag filename' endTime delta average'
                fuel d fs' log.
Proof.
  induction fuel as [|fuel IH]; intros d fs fs' log.
  - simpl. by destruct (d <? endTime).
  - destruct (Z.lt_ge_cases d endTime) as [Hd|Hd].
    + rewrite !getTag_loop_step by done. apply IH.
    + by rewrite !getTag_loop_exit.
Qed.

(** C5: an exception of the query, or of the export after it, ends the
    iteration and nothing else: the cursor has moved on by the packet
    size, and the loop goes on with the next packet.  After a failed query
    the files are as they were; after an export that failed on its
    division the output file is open and has no new line.  The packets of
    the loop are the same whatever the connection answers, and for a
    positive packet size the loop comes to its end with all of them.
    There is no retry: an iteration calls the connection once, with the
    query of its packet, whether the call or the export raised or not, so
    the calls of the whole loop are the queries of its packets, each one
    once and in their order. *)
Theorem getTag_swallows_errors
    (connection : Connection) (tag filename : string)
    (endTime : datetime) (delta : timedelta) (average : bool) :
  (∀ d fs e,
      connection {| q_tag := tag; q_start := strftime d;
                    q_end := strftime (d + delta) |} = Raise e →
      loop_body connection tag filename delta average d fs
      = (d + delta, fs, packet_at tag d delta 0))
  ∧ (∀ d fs,
        connection {| q_tag := tag; q_start := strftime d;
                      q_end := strftime (d + delta) |}
        = Ok {| BOF := false; EOF := false; GetRows := [] |} →
        average = true →
        (∀ action,
            (try_block connection tag filename delta average (strftime d)
               (strftime (d + delta)) (d + delta) action fs).2
            = Raise ZeroDivisionError)
        ∧ loop_body connection tag filename delta average d fs
          = (d + delta,
             match fs !! filename with
             | Some _ => fs
             | None => <[filename := []]> fs
             end,
             packet_at tag d delta 0))
  ∧ (∀ fuel d fs log,
        d < endTime →
        getTag_loop connection tag filename endTime delta average
          (S fuel) d fs log
        = getTag_loop connection tag filename endTime delta average fuel
            (d + delta)
            (loop_body connection tag filename delta average d fs).1.2
            (log ++ [packet_at tag d delta 0]))
  ∧ (∀ connection' average' fuel d fs fs' log,
        snd <$> getTag_loop connection tag filename endTime delta average
                  fuel d fs log
        = snd <$> getTag_loop connection' tag filename endTime delta average'
                    fuel d fs' log)
  ∧ (0 < delta →
     ∀ d fs, ∃ fs',
       getTag_loop connection tag filename endTime delta average
         (packet_count d endTime delta) d fs []
       = Some (fs', packets tag d delta (packet_count d endTime delta)))
  ∧ (∀ d trace fs e,
        connection {| q_tag := tag; q_start := strftime d;
                      q_end := strftime (d + delta) |} = Raise e →
        loop_body_traced connection tag filename delta average d trace fs
        = (d + delta,
           trace ++ [ {| q_tag := tag; q_start := strftime d;
                         q_end := strftime (d + delta) |} ],
           fs, packet_at tag d delta 0))
  ∧ (∀ d trace fs,
        loop_body_traced connection tag filename delta average d trace fs
        = (d + delta,
           trace ++ [ {| q_tag := tag; q_start := strftime d;
                         q_end := strftime (d + delta) |} ],
           (loop_body connection tag filename delta average d fs).1.2,
           packet_at tag d delta 0))
  ∧ (∀ fuel d trace fs,
        getTag_loop_traced connection tag filename endTime delta average
          fuel d trace fs []
        = match getTag_loop connection tag filename endTime delta average
                  fuel d fs [] with
          | Some (fs', log) => Some (trace ++ map p_query log, fs', log)
          | None => None
          end)
  ∧ (0 < delta →
     ∀ d trace fs, ∃ fs',
       getTag_loop_traced connection tag filename endTime delta average
         (packet_count d endTime delta) d trace fs []
       = Some (trace
               ++ map p_query
                    (packets tag d delta (packet_count d endTime delta)),
               fs', packets tag d delta (packet_count d endTime delta))).
Proof.
  assert (Hbody : ∀ d trace fs,
             loop_body_traced connection tag filename delta average d trace
               fs
             = (d + delta,
                trace ++ [ {| q_tag := tag; q_start := strftime d;
                              q_end := strftime (d + delta) |} ],
                (loop_body connection tag filename delta average d fs).1.2,
                packet_at tag d delta 0)).
  { intros d trace fs.
    pose proof (loop_body_packet connection tag filename delta average d fs)
      as Hp.
    unfold loop_body_traced. rewrite try_block_traced_once.
    unfold loop_body in *. simpl in Hp. rewrite <- Hp. reflexivity. }
  assert (Hraise : ∀ d fs e,
             connection {| q_tag := tag; q_start := strftime d;
                           q_end := strftime (d + delta) |} = Raise e →
             loop_body connection tag filename delta average d fs
             = (d + delta, fs, packet_at tag d delta 0)).
  { intros d fs e Hq.
    pose proof (loop_body_packet connection tag filename delta average d fs)
      as Hp.
    unfold loop_body in *. simpl in Hp. rewrite <- Hp.
    unfold try_block, adodb_query. by rewrite Hq. }
  assert (Hloop : ∀ fuel d trace fs,
             getTag_loop_traced connection tag filename endTime delta average
               fuel d trace fs []
             = match getTag_loop connection tag filename endTime delta
                       average fuel d fs [] with
               | Some (fs', log) => Some (trace ++ map p_query log, fs', log)
               | None => None
               end).
  { intros fuel d trace fs.
    pose proof (getTag_loop_traced_log connection tag filename endTime delta
                  average fuel d trace fs []) as H.
    simpl in H. by rewrite app_nil_r in H. }
  refine (conj Hraise (conj _ (conj _ (conj _ (conj _
            (conj _ (conj Hbody (conj Hloop _)))))))).
  - intros d fs Hq ->. split.
    + intros action. unfold try_block, adodb_query. by rewrite Hq.
    + pose proof (loop_body_packet connection tag filename delta true d fs)
        as Hp.
      unfold loop_body in *. simpl in Hp. rewrite <- Hp. f_equal. f_equal.
      unfold try_block, adodb_query.
      rewrite Hq, export_average_zero_division. simpl.
      apply open_existing_or_new.
  - intros. by apply getTag_loop_step.
  - intros. apply getTag_loop_log_independent.
  - intros Hd d fs. rewrite getTag_loop_packets by (done || lia). eauto.
  - intros d trace fs e Hq. rewrite Hbody, (Hraise d fs e Hq). reflexivity.
  - intros Hd d trace fs. rewrite Hloop.
    rewrite getTag_loop_packets by (done || lia). eauto.
Qed.

Lemma getTag_swallows_errors_witness :
  loop_body (λ _, Raise ProviderError) "T1" "T1.txt" (timedelta_of 0 0 0 10)
    false (datetime_of 2019 4 7 12 0 0 0) ∅
  = (datetime_of 2019 4 7 12 0 0 0 + timedelta_of 0 0 0 10, ∅,
     packet_at "T1" (datetime_of 2019 4 7 12 0 0 0) (timedelta_of 0 0 0 10) 0).
Proof.
  exact (proj1 (getTag_swallows_errors (λ _, Raise ProviderError) "T1"
                  "T1.txt" (datetime_of 2019 4 7 12 0 25 0)
                  (timedelta_of 0 0 0 10) false)
           (datetime_of 2019 4 7 12 0 0 0) ∅ ProviderError eq_refl).
Defined.

(** ** The output file *)

Section Files.
Variable connection : Connection.
Variables tag filename : string.
Variable delta : timedelta.
Variable average : bool.

Abbreviation body_fs d fs :=
  (loop_body connection tag filename delta average d fs).1.2.
Abbreviation query_at d := (p_query (packet_at tag d delta 0)).

Lemma open_file_lookup (fs : FS) (action : mode) (f : string) :
  open_file fs filename action !! f
  = if decide (f = filename)
    then Some (match action with
               | mode_w => []
               | mode_a => default [] (fs !! filename)
               end)
    else fs !! f.
Proof.
  unfold open_file. destruct (decide (f = filename)) as [->|Hne].
  - destruct action; [by rewrite lookup_insert_eq |].
    destruct (fs !! filename) eqn:Hf; [by rewrite Hf |].
    by rewrite lookup_insert_eq.
  - destruct action; [by rewrite lookup_insert_ne |].
    destruct (fs !! filename); [done | by rewrite lookup_insert_ne].
Qed.

Lemma write_line_lookup (fs : FS) (line : Line) (f : string) :
  write_line fs filename line !! f
  = if decide (f = filename)
    then Some (default [] (fs !! filename) ++ [line])
    else fs !! f.
Proof.
  unfold write_line. destruct (decide (f = filename)) as [->|Hne].
  - by rewrite lookup_insert_eq.
  - by rewrite lookup_insert_ne.
Qed.

Lemma write_lines_lookup (rows : list Row) :
  ∀ (fs : FS) (f : string),
    fold_left (λ fs item, write_line fs filename (line_of_row item)) rows fs
      !! f
    = if decide (f = filename)
      then match rows with
           | [] => fs !! filename
           | _ => Some (default [] (fs !! filename)
                        ++ map line_of_row rows)
           end
      else fs !! f.
Proof.
  induction rows as [|r rows IH]; intros fs f; simpl.
  - by destruct (decide (f = filename)) as [->|].
  - rewrite IH. destruct (decide (f = filename)) as [->|Hne].
    + rewrite write_line_lookup. rewrite decide_True by done. simpl.
      destruct rows; simpl; [done | by rewrite <- app_assoc].
    + rewrite write_line_lookup. by rewrite decide_False.
Qed.

(** The try block touches the output file only, and leaves it in place
    whenever the query was answered. *)
Lemma try_block_lookup (date1 date2 : string) (d : datetime)
    (action : mode) (fs : FS) (f : string) :
  let fs' := (try_block connection tag filename delta average date1 date2 d
                action fs).1 in
  (f ≠ filename → fs' !! f = fs !! f)
  ∧ (is_Some (fs' !! filename)
     ↔ is_Some (fs !! filename)
       ∨ answered (connection {| q_tag := tag; q_start := date1;
                                 q_end := date2 |})).
Proof.
  unfold try_block, adodb_query.
  destruct (connection _) as [rs|e]; simpl.
  2: { split; [done |]. split; [by left | by intros [?|[]]]. }
  assert (Hopen : is_Some (open_file fs filename action !! filename)).
  { rewrite open_file_lookup, decide_True by done. eauto. }
  destruct average.
  - unfold export_average.
    destruct (negb (BOF rs || EOF rs)).
    + destruct (fold_left average_step (GetRows rs) (None, 0%float, 0))
        as [[t a] n].
      destruct (n =? 0); [| destruct t]; simpl.
      * split; [intros; rewrite open_file_lookup; by rewrite decide_False
               | split; [by right | done]].
      * split.
        -- intros Hne. rewrite write_line_lookup, decide_False by done.
           rewrite open_file_lookup. by rewrite decide_False.
        -- rewrite write_line_lookup, decide_True by done.
           split; [by right | eauto].
      * split; [intros; rewrite open_file_lookup; by rewrite decide_False
               | split; [by right | done]].
    + simpl.
      split; [intros; rewrite open_file_lookup; by rewrite decide_False
             | split; [by right | done]].
  - unfold export. destruct (negb (BOF rs || EOF rs)); simpl.
    + split.
      * intros Hne. rewrite write_lines_lookup, decide_False by done.
        rewrite open_file_lookup. by rewrite decide_False.
      * rewrite write_lines_lookup, decide_True by done.
        split; [by right |]. intros _. destruct (GetRows rs); eauto.
    + split; [intros; rewrite open_file_lookup; by rewrite decide_False
             | split; [by right | done]].
Qed.

Lemma loop_body_other_files (d : datetime) (fs : FS) (f : string) :
  f ≠ filename → body_fs d fs !! f = fs !! f.
Proof. intros Hne. unfold loop_body. simpl. by apply try_block_lookup. Qed.

Lemma loop_body_file_exists (d : datetime) (fs : FS) :
  is_Some (body_fs d fs !! filename)
  ↔ is_Some (fs !! filename) ∨ answered (connection (query_at d)).
Proof.
  unfold loop_body, packet_at. simpl.
  replace (d + Z.of_nat 0 * delta) with d by lia.
  apply (try_block_lookup _ _ _ _ _ filename).
Qed.


Abbreviation iter_fs n d fs log :=
  (iterate_body connection tag filename delta average n d fs log).1.2.

Lemma iterate_body_S (n : nat) (d : datetime) (fs : FS)
    (log : list Packet) :
  iterate_body connection tag filename delta average (S n) d fs log
  = iterate_body connection tag filename delta average n (d + delta)
      (body_fs d fs) (log ++ [packet_at tag d delta 0]).
Proof.
  cbn [iterate_body].
  pose proof (loop_body_cursor connection tag filename delta average d fs)
    as Hc.
  pose proof (loop_body_packet connection tag filename delta average d fs)
    as Hp.
  destruct (loop_body _ _ _ _ _ d fs) as [[d' fs'] p].
  simpl in *. by subst.
Qed.

Lemma iterate_other_files (n : nat) (f : string) :
  f ≠ filename →
  ∀ d fs log, iter_fs n d fs log !! f = fs !! f.
Proof.
  intros Hne. induction n as [|n IH]; intros d fs log; [done |].
  rewrite iterate_body_S, IH. by apply loop_body_other_files.
Qed.

Lemma iterate_file_exists (n : nat) :
  ∀ d fs log,
    is_Some (iter_fs n d fs log !! filename)
    ↔ is_Some (fs !! filename)
      ∨ ∃ p, p ∈ packets tag d delta n ∧ answered (connection (p_query p)).
Proof.
  induction n as [|n IH]; intros d fs log.
  - simpl. split; [by left |]. intros [?|(p & Hp & _)]; [done |].
    by apply elem_of_nil in Hp.
  - rewrite iterate_body_S, IH, loop_body_file_exists, packets_S.
    split.
    + intros [[?|?]|(p & Hp & Ha)]; [by left | |].
      * right. eexists. split; [apply list_elem_of_here | done].
      * right. exists p. split; [by apply list_elem_of_further | done].
    + intros [?|(p & Hp & Ha)]; [by left; left |].
      apply elem_of_cons in Hp as [->|Hp]; [by left; right |].
      right. eauto.
Qed.


(** A loop that came to its end has run its body some number of times. *)
Lemma getTag_loop_iter (endTime : datetime) (fuel : nat) :
  ∀ d fs log fs' log',
    getTag_loop connection tag filename endTime delta average fuel d fs log
    = Some (fs', log') →
    ∃ n, fs' = iter_fs n d fs log ∧ log' = log ++ packets tag d delta n.
Proof.
  induction fuel as [|fuel IH]; intros d fs log fs' log'.
  - simpl. destruct (d <? endTime); [done |]. intros [= <- <-].
    exists 0%nat. by rewrite app_nil_r.
  - destruct (Z.lt_ge_cases d endTime) as [Hd|Hd].
    + rewrite getTag_loop_step by done. intros Hl.
      apply IH in Hl as (n & -> & ->). exists (S n).
      by rewrite iterate_body_S, packets_S, <- app_assoc.
    + rewrite getTag_loop_exit by done. intros [= <- <-].
      exists 0%nat. by rewrite app_nil_r.
Qed.
End Files.

(** ** The flag of getTag *)

Lemma iterate_all_raise (connection : Connection) (tag filename : string)
    (delta : timedelta) (average : bool) (n : nat) :
  (∀ q, ¬ answered (connection q)) →
  ∀ d fs log,
    (iterate_body connection tag filename delta average n d fs log).1.2 = fs.
Proof.
  intros Hno. induction n as [|n IH]; intros d fs log; [done |].
  rewrite iterate_body_S, IH. unfold loop_body, try_block, adodb_query. simpl.
  specialize (Hno {| q_tag := tag; q_start := strftime d;
                     q_end := strftime (d + delta) |}).
  by destruct (connection _).
Qed.

Lemma getTag_finish_cases (filename : string) (fs : FS) :
  getTag_finish filename fs
  = match fs !! filename with
    | None => (fs, Raise FileNotFoundError)
    | Some [] => (delete filename fs, Ok true)
    | Some (_ :: _) => (fs, Ok false)
    end.
Proof.
  unfold getTag_finish. by destruct (fs !! filename) as [[|l c]|].
Qed.

(** C10, as the code has it: when the loop of [getTag] has come to its
    end, [getTag] returns its flag exactly when the output file is there:
    it was there before the call, or the query of some iteration was
    answered, so that the export opened the file.  A file that was not
    there before and that no iteration opened makes the check of the size
    raise the file-not-found error, which nothing catches: so it is for an
    empty window, where start equals end and the loop does nothing, and
    for a window all of whose queries raise.  A file with lines from an
    earlier run makes [getTag] return the flag for a file with data even
    for the empty window. *)
Theorem getTag_flag_iff
    (connection : Connection) (fs : FS) (tag : string)
    (startTime endTime : datetime) (id : string) (packetsize : timedelta)
    (average : bool) :
  let filename := filename_of id tag in
  (∀ fuel fs' log r,
      getTag fuel connection fs tag startTime endTime id packetsize average
      = Some (fs', log, r) →
      ((∃ flag, r = Ok flag)
       ↔ is_Some (fs !! filename)
         ∨ ∃ p, p ∈ log ∧ answered (connection (p_query p)))
      ∧ ((∃ flag, r = Ok flag) ∨ r = Raise FileNotFoundError))
  ∧ (startTime = endTime → fs !! filename = None →
     ∀ fuel,
       getTag fuel connection fs tag startTime endTime id packetsize average
       = Some (fs, [], Raise FileNotFoundError))
  ∧ (startTime < endTime → 0 < packetsize →
     (∀ q, ¬ answered (connection q)) → fs !! filename = None →
     getTag (packet_count startTime endTime packetsize) connection fs tag
       startTime endTime id packetsize average
     = Some (fs,
             packets tag startTime packetsize
               (packet_count startTime endTime packetsize),
             Raise FileNotFoundError))
  ∧ (startTime = endTime →
     ∀ line content, fs !! filename = Some (line :: content) →
     ∀ fuel,
       getTag fuel connection fs tag startTime endTime id packetsize average
       = Some (fs, [], Ok false)).
Proof.
  intros filename. refine (conj _ (conj _ (conj _ _))).
  - intros fuel fs' log r. unfold getTag. fold filename.
    destruct (getTag_loop _ _ _ _ _ _ _ _ _ _) as [[fs1 log1]|] eqn:Hl;
      [|done].
    apply getTag_loop_iter in Hl as (n & -> & ->). simpl.
    rewrite getTag_finish_cases.
    pose proof (iterate_file_exists connection tag filename packetsize
                  average n startTime fs []) as Hex.
    destruct (_ !! filename) as [[|l c]|] eqn:Hf; intros [= <- <- <-].
    + split; [|eauto]. split; [intros _; apply Hex; eauto | eauto].
    + split; [|eauto]. split; [intros _; apply Hex; eauto | eauto].
    + split; [|eauto]. split; [by intros [flag ?] |].
      intros H. apply Hex in H. by destruct H.
  - intros -> Hf fuel. unfold getTag. fold filename.
    rewrite getTag_loop_exit by lia. unfold getTag_finish. by rewrite Hf.
  - intros Hw Hp Hno Hf. unfold getTag. fold filename.
    rewrite getTag_loop_packets by (done || lia).
    rewrite iterate_all_raise by done. unfold getTag_finish. by rewrite Hf.
  - intros -> line content Hf fuel. unfold getTag. fold filename.
    rewrite getTag_loop_exit by lia. unfold getTag_finish. by rewrite Hf.
Qed.

Lemma getTag_flag_iff_witness :
  datetime_of 2019 4 7 12 0 0 0 = datetime_of 2019 4 7 12 0 0 0
  ∧ (∅ : FS) !! filename_of "" "T1" = None
  ∧ getTag 5 (λ _, Ok (recordset_of [])) ∅ "T1"
      (datetime_of 2019 4 7 12 0 0 0) (datetime_of 2019 4 7 12 0 0 0) ""
      (timedelta_of 1 0 0 0) false
    = Some (∅, [], Raise FileNotFoundError).
Proof.
  split; [reflexivity |]. split; [reflexivity |].
  exact (proj1 (proj2 (getTag_flag_iff (λ _, Ok (recordset_of [])) ∅ "T1"
                         (datetime_of 2019 4 7 12 0 0 0)
                         (datetime_of 2019 4 7 12 0 0 0) ""
                         (timedelta_of 1 0 0 0) false))
           eq_refl eq_refl 5%nat).
Defined.

(** The file T1.txt holds a line of an earlier run and the window from
    12:00:00 to 12:00:00 is empty: no iteration runs, none makes or opens
    the file, and [getTag] returns the flag of a file with data. *)
Lemma getTag_flag_without_iteration :
  let line := {| l_tag := "T1"; l_time := "06.04.2019 12:00:00.000";
                 l_value := 1 |} in
  getTag 5 (λ _, Raise ProviderError) {[ "T1.txt"%string := [line] ]} "T1"
    (datetime_of 2019 4 7 12 0 0 0) (datetime_of 2019 4 7 12 0 0 0) ""
    (timedelta_of 1 0 0 0) false
  = Some ({[ "T1.txt"%string := [line] ]}, [], Ok false).
Proof. vm_compute. reflexivity. Qed.

(** ** Tags without samples *)





(** ** The window *)

(** C8: the sub-command sw takes the start as it is given and adds the
    duration to it for the end; the sub-command ew takes the end as it is
    given and subtracts the duration from it for the start; a duration
    left out is one day.  The start 2019-04-07 12:00:00 with the window
    10m has the end 2019-04-07 12:10:00, and the end 2019-04-07 12:10:00
    with the window 10m has the start 2019-04-07 12:00:00. *)
Theorem resolve_window_modes (s e : datetime) (w : timedelta) :
  resolve_window (sw s (Some w)) = Ok (s, s + w)
  ∧ resolve_window (ew e (Some w)) = Ok (e - w, e)
  ∧ window_args (sw s None) = Ok (sw s (Some (timedelta_of 1 0 0 0)))
  ∧ window_args (ew e None) = Ok (ew e (Some (timedelta_of 1 0 0 0)))
  ∧ (∀ psize pave fuel connection tags fs,
        main fuel connection tags
          {| cl_window := sw (datetime_of 2019 4 7 12 0 0 0) (Some "10m");
             cl_psize := psize; cl_pave := pave |} fs
        = main fuel connection tags
            {| cl_window := se (datetime_of 2019 4 7 12 0 0 0)
                               (datetime_of 2019 4 7 12 10 0 0);
               cl_psize := psize; cl_pave := pave |} fs)
  ∧ (∀ psize pave fuel connection tags fs,
        main fuel connection tags
          {| cl_window := ew (datetime_of 2019 4 7 12 10 0 0) (Some "10m");
             cl_psize := psize; cl_pave := pave |} fs
        = main fuel connection tags
            {| cl_window := se (datetime_of 2019 4 7 12 0 0 0)
                               (datetime_of 2019 4 7 12 10 0 0);
               cl_psize := psize; cl_pave := pave |} fs)
  ∧ resolved_window (sw (datetime_of 2019 4 7 12 0 0 0) (Some "10m"))
    = Ok (datetime_of 2019 4 7 12 0 0 0, datetime_of 2019 4 7 12 10 0 0)
  ∧ resolved_window (ew (datetime_of 2019 4 7 12 10 0 0) (Some "10m"))
    = Ok (datetime_of 2019 4 7 12 0 0 0, datetime_of 2019 4 7 12 10 0 0)
  ∧ strftime (datetime_of 2019 4 7 12 0 0 0 + timedelta_of 0 0 10 0)
    = "07.04.2019  12:10:00"%string.
Proof.
  assert (H10 : parse_time "10m" = Ok (Some (timedelta_of 0 0 10 0)))
    by reflexivity.
  refine (conj eq_refl (conj eq_refl (conj eq_refl (conj eq_refl
            (conj _ (conj _ (conj _ (conj _ _)))))))).
  - intros psize pave fuel connection tags fs.
    unfold main, get_cli_args, window_args, duration_arg. cbn [cl_window
      cl_psize cl_pave]. rewrite H10.
    by destruct (match psize with Some _ => _ | None => _ end) as [[?|]|].
  - intros psize pave fuel connection tags fs.
    unfold main, get_cli_args, window_args, duration_arg. cbn [cl_window
      cl_psize cl_pave]. rewrite H10.
    by destruct (match psize with Some _ => _ | None => _ end) as [[?|]|].
  - unfold resolved_window, window_args, duration_arg. by rewrite H10.
  - unfold resolved_window, window_args, duration_arg. by rewrite H10.
  - reflexivity.
Qed.

(** ** Durations of the command line *)

Lemma groupdict_ok (caps : gmap string string) :
  caps_ok caps → Forall (λ item, group_ok item.2) (groupdict caps).
Proof.
  intros Hok. unfold groupdict. simpl.
  repeat constructor; simpl;
    match goal with
    | |- group_ok (caps !! ?n) =>
        destruct (caps !! n) eqn:Hn; simpl; [by eapply Hok | done]
    end.
Qed.

Lemma parse_time_outcome (time_str : string) :
  match parse_time time_str with
  | Ok (Some td) =>
      ∃ seconds, 0 <= seconds ∧ td = seconds * 1000000 ∧ in_range td
  | Ok None => False
  | Raise e => e = OverflowError ∨ e = ValueError
  end.
Proof.
  destruct (regex_match_caps_ok time_str) as (caps & Hm & Hok).
  pose proof (groupdict_ok caps Hok) as Hall.
  destruct (collect_outcome (groupdict caps) ∅ Hall) as [HV|Hshort].
  - unfold parse_time. rewrite Hm, HV. by right.
  - unfold groupdict in Hall, Hshort. simpl in Hall, Hshort.
    apply Forall_cons in Hall as [Hd Hall], Hshort as [Hd' Hshort].
    apply Forall_cons in Hall as [Hh Hall], Hshort as [Hh' Hshort].
    apply Forall_cons in Hall as [Hmi Hall], Hshort as [Hmi' Hshort].
    apply Forall_cons in Hall as [Hs _], Hshort as [Hs' _].
    simpl in *.
    rewrite (parse_time_groups time_str caps _ _ _ _ Hm eq_refl eq_refl
               eq_refl eq_refl (conj Hd Hd') (conj Hh Hh') (conj Hmi Hmi')
               (conj Hs Hs')).
    destruct (timedelta_of_nonneg _ _ _ _ Hd Hh Hmi Hs) as (secs & H0 & ->).
    rewrite timedelta_new_nonneg by lia.
    destruct (Z.leb_spec (secs * 1000000 / 86400000000) MAX_DELTA_DAYS).
    + exists secs. by split_and!.
    + by left.
Qed.

(** The outcomes of [parse_time]: the pattern always matches, so the
    result is never [None]; it is a duration of a whole number of seconds
    that is not negative and has at most 999999999 days, or the
    OverflowError of the timedelta constructor for more days than that, or
    the ValueError of [int] for a numeral that is too long. *)
Theorem parse_time_whole_seconds (time_str : string) :
  match parse_time time_str with
  | Ok (Some td) =>
      ∃ seconds, 0 <= seconds ∧ td = seconds * 1000000 ∧ in_range td
  | Ok None => False
  | Raise e => e = OverflowError ∨ e = ValueError
  end.
Proof. exact (parse_time_outcome time_str). Qed.









(** ** What a run writes *)

Section Content.
Variable connection : Connection.
Variables tag filename : string.
Variable delta : timedelta.
Variable average : bool.

Abbreviation lines_of p := (packet_lines connection delta average p).

Lemma open_file_default (fs : FS) :
  default [] (open_file fs filename
                (if isfile fs filename then mode_a else mode_w) !! filename)
  = default [] (fs !! filename).
Proof.
  rewrite open_existing_or_new.
  destruct (fs !! filename) as [c|] eqn:Hf; [by rewrite Hf |].
  by rewrite lookup_insert_eq.
Qed.

(** The output file after one iteration. *)
Lemma loop_body_content (d : datetime) (fs : FS) :
  (loop_body connection tag filename delta average d fs).1.2 !! filename
  = match connection (p_query (packet_at tag d delta 0)) with
    | Raise _ => fs !! filename
    | Ok _ =>
        Some (default [] (fs !! filename) ++ lines_of (packet_at tag d delta 0))
    end.
Proof.
  unfold loop_body, packet_lines, packet_at. simpl.
  replace (d + Z.of_nat 0 * delta) with d by lia.
  unfold try_block, adodb_query.
  destruct (connection _) as [rs|e]; simpl; [|done].
  set (action := if isfile fs filename then mode_a else mode_w).
  assert (Hopen : open_file fs filename action !! filename
                  = Some (default [] (fs !! filename))).
  { pose proof (open_file_default fs) as Hd. fold action in Hd.
    rewrite open_file_lookup, decide_True in * by done. simpl in Hd.
    by rewrite Hd. }
  destruct average.
  - unfold export_average. destruct (negb (BOF rs || EOF rs)); simpl.
    + rewrite average_fold.
      destruct (GetRows rs) as [|r0 rows] eqn:Hrows.
      * simpl. by rewrite Hopen, app_nil_r.
      * rewrite <- Hrows.
        destruct (last (GetRows rs)) as [r|] eqn:Hl;
          [|apply last_None in Hl; congruence].
        assert ((0 + Z.of_nat (length (GetRows rs)) =? 0) = false) as ->.
        { apply Z.eqb_neq. rewrite Hrows. simpl. lia. }
        simpl. rewrite write_line_lookup, decide_True by done.
        rewrite Hopen. simpl. unfold arithmetic_mean.
        by rewrite length_map, Z.add_0_l.
    + by rewrite Hopen, app_nil_r.
  - unfold export. destruct (negb (BOF rs || EOF rs)); simpl.
    + rewrite write_lines_lookup, decide_True by done. rewrite Hopen.
      destruct (GetRows rs); simpl; [by rewrite app_nil_r | done].
    + by rewrite Hopen, app_nil_r.
Qed.

(** The output file after [n] iterations holds what it held before and
    then the lines of the packets, one packet after the other. *)
Lemma iterate_content (n : nat) :
  ∀ d fs log content,
    (iterate_body connection tag filename delta average n d fs log).1.2
      !! filename = Some content →
    content = default [] (fs !! filename)
              ++ concat (map (packet_lines connection delta average)
                        (packets tag d delta n)).
Proof.
  induction n as [|n IH]; intros d fs log content.
  - simpl. intros ->. by rewrite app_nil_r.
  - rewrite iterate_body_S. intros Hc. apply IH in Hc as ->.
    rewrite packets_S, loop_body_content. cbn [map concat].
    destruct (connection (p_query (packet_at tag d delta 0))) as [rs|e] eqn:Hq.
    + cbn [default]. by rewrite app_assoc.
    + assert (lines_of (packet_at tag d delta 0) = []) as ->
        by (unfold packet_lines; by rewrite Hq).
      done.
Qed.

Lemma lines_of_unanswered (log : list Packet) :
  (∀ p, p ∈ log → ¬ answered (connection (p_query p))) →
  concat (map (packet_lines connection delta average) log) = [].
Proof.
  induction log as [|p log IH]; intros Hno; [done |]. simpl.
  rewrite IH by (intros q Hq; apply Hno; by apply list_elem_of_further).
  specialize (Hno p (list_elem_of_here _ _)). unfold packet_lines.
  destruct (connection (p_query p)); [by destruct Hno | done].
Qed.
End Content.

Lemma getTag_content
    (fuel : nat) (connection : Connection) (fs : FS) (tag : string)
    (startTime endTime : datetime) (id : string) (packetsize : timedelta)
    (average : bool) (fs' : FS) (log : list Packet) (r : result bool) :
  getTag fuel connection fs tag startTime endTime id packetsize average
  = Some (fs', log, r) →
  let filename := filename_of id tag in
  let old := default [] (fs !! filename) in
  let new := concat (map (packet_lines connection packetsize average) log) in
  (∀ f, f ≠ filename → fs' !! f = fs !! f)
  ∧ match r with
    | Ok false => old ++ new ≠ [] ∧ fs' !! filename = Some (old ++ new)
    | Ok true => old ++ new = [] ∧ fs' !! filename = None
    | Raise e =>
        e = FileNotFoundError ∧ fs !! filename = None ∧ new = [] ∧ fs' = fs
        ∧ ∀ p, p ∈ log → ¬ answered (connection (p_query p))
    end.
Proof.
  intros Hg filename old new. unfold getTag in Hg. fold filename in Hg.
  destruct (getTag_loop _ _ _ _ _ _ _ _ _ _) as [[fs1 log1]|] eqn:Hl;
    [|done].
  apply getTag_loop_iter in Hl as (n & -> & ->). simpl in Hg.
  set (fs1 := (iterate_body connection tag filename packetsize average n
                 startTime fs []).1.2) in *.
  assert (Hframe : ∀ f, f ≠ filename → fs1 !! f = fs !! f).
  { intros f Hne. by apply iterate_other_files. }
  pose proof (iterate_content connection tag filename packetsize average n
                startTime fs []) as Hcontent. fold fs1 in Hcontent.
  pose proof (iterate_file_exists connection tag filename packetsize average
                n startTime fs []) as Hex. fold fs1 in Hex.
  rewrite getTag_finish_cases in Hg.
  destruct (fs1 !! filename) as [[|l c]|] eqn:Hf;
    injection Hg as <- <- <-.
  - split.
    + intros f Hne. rewrite lookup_delete_ne by done. by apply Hframe.
    + split; [symmetry; by apply Hcontent | apply lookup_delete_eq].
  - split; [done |]. specialize (Hcontent _ eq_refl).
    unfold old, new. simpl. rewrite <- Hcontent. by rewrite Hf.
  - assert (Hnone : fs !! filename = None
                    ∧ ∀ p, p ∈ packets tag startTime packetsize n →
                           ¬ answered (connection (p_query p))).
    { split.
      - destruct (fs !! filename) eqn:Hfs; [|done].
        assert (is_Some (None : option (list Line))) as [? ?]; [|done].
        apply Hex. left. eauto.
      - intros p Hp Ha.
        assert (is_Some (None : option (list Line))) as [? ?]; [|done].
        apply Hex. right. eauto. }
    destruct Hnone as [Hfs Hno].
    split; [done |]. split_and!; [done | done | | | done].
    + by apply lines_of_unanswered.
    + apply map_eq. intros f. destruct (decide (f = filename)) as [->|Hne].
      * by rewrite Hf, Hfs.
      * by apply Hframe.
Qed.

(** When [getTag] ends, every other file is as it was, and the output file
    of the tag is what it held before the call followed by the lines of
    the packets in their order: the rows of each answered query, or their
    one mean line in averaging mode, and nothing for a query or an export
    that raised.  The flag is false exactly when that file has a line and
    is kept, true when it has none and is gone; the call raises only when
    the file was missing before and every query of the loop raised, so
    that none was answered, and then the files are as before. *)
Theorem getTag_file_content
    (fuel : nat) (connection : Connection) (fs : FS) (tag : string)
    (startTime endTime : datetime) (id : string) (packetsize : timedelta)
    (average : bool) (fs' : FS) (log : list Packet) (r : result bool) :
  getTag fuel connection fs tag startTime endTime id packetsize average
  = Some (fs', log, r) →
  let filename := filename_of id tag in
  let old := default [] (fs !! filename) in
  let new := concat (map (packet_lines connection packetsize average) log) in
  (∀ f, f ≠ filename → fs' !! f = fs !! f)
  ∧ match r with
    | Ok false => old ++ new ≠ [] ∧ fs' !! filename = Some (old ++ new)
    | Ok true => old ++ new = [] ∧ fs' !! filename = None
    | Raise e =>
        e = FileNotFoundError ∧ fs !! filename = None ∧ new = [] ∧ fs' = fs
        ∧ ∀ p, p ∈ log → ¬ answered (connection (p_query p))
    end.
Proof.
  exact (getTag_content fuel connection fs tag startTime endTime id
           packetsize average fs' log r).
Qed.

Lemma getTag_file_content_witness :
  let old := {| l_tag := "T1"; l_time := "06.04.2019 12:00:00.000";
                l_value := 1 |} in
  let row := {| r_tag := "T1"; r_time := "07.04.2019 12:00:05.000";
                r_value := 2 |} in
  let fs : FS := {[ "T1.txt"%string := [old] ]} in
  let connection : Connection := λ _, Ok (recordset_of [row]) in
  let startTime := datetime_of 2019 4 7 12 0 0 0 in
  let delta := timedelta_of 0 0 0 10 in
  let fs' : FS :=
    {[ "T1.txt"%string := [old; line_of_row row; line_of_row row] ]} in
  getTag 2 connection fs "T1" startTime (datetime_of 2019 4 7 12 0 20 0) ""
    delta false
  = Some (fs', packets "T1" startTime delta 2, Ok false)
  ∧ fs' !! "T1.txt"%string
    = Some ([old]
            ++ concat (map (packet_lines connection delta false)
                         (packets "T1" startTime delta 2))).
Proof.
  intros old row fs connection startTime delta fs'.
  assert (Hrun : getTag 2 connection fs "T1" startTime
                   (datetime_of 2019 4 7 12 0 20 0) "" delta false
                 = Some (fs', packets "T1" startTime delta 2, Ok false))
    by (vm_compute; reflexivity).
  split; [exact Hrun |].
  exact (proj2 (proj2 (getTag_file_content 2 connection fs "T1" startTime
                         (datetime_of 2019 4 7 12 0 20 0) "" delta false
                         fs' (packets "T1" startTime delta 2) (Ok false)
                         Hrun))).
Defined.

(** ** A run over the tag list *)

Lemma extract_data_cons (fuel : nat) (connection : Connection) (tag : string)
    (tags : list string) (start stop : datetime) (packetsize : timedelta)
    (average : bool) (fs : FS) (out : list Report) :
  extract_data fuel connection (tag :: tags) start stop packetsize average
    fs out
  = match getTag fuel connection fs tag start stop EmptyString packetsize
            average with
    | None => None
    | Some (fs', _, Raise e) => Some (fs', out, Raise e)
    | Some (fs', _, Ok isEmpty) =>
        extract_data fuel connection tags start stop packetsize average fs'
          (out ++ [ {| rep_start := start; rep_stop := stop; rep_tag := tag;
                       rep_verdict := if isEmpty then "Empty"
                                      else "Signal" |} ])
    end.
Proof. reflexivity. Qed.

Lemma getTag_keeps_lines (fuel : nat) (connection : Connection) (fs : FS)
    (tag : string) (startTime endTime : datetime) (id : string)
    (packetsize : timedelta) (average : bool) (fs' : FS)
    (log : list Packet) (r : result bool) (f : string) (old : list Line) :
  getTag fuel connection fs tag startTime endTime id packetsize average
  = Some (fs', log, r) →
  fs !! f = Some old → old ≠ [] →
  ∃ more, fs' !! f = Some (old ++ more).
Proof.
  intros Hg Hf Hold.
  destruct (getTag_content _ _ _ _ _ _ _ _ _ _ _ _ Hg) as [Hframe Hr].
  destruct (decide (f = filename_of id tag)) as [->|Hne].
  - rewrite Hf in Hr. simpl in Hr. destruct r as [[|]|e].
    + destruct Hr as [Hnil _]. by destruct old.
    + destruct Hr as [_ ->]. eauto.
    + destruct Hr as (_ & [=] & _).
  - exists []. by rewrite app_nil_r, Hframe.
Qed.

(** A run never loses a line: a file that has lines before a run of
    [extract_data] has the same lines after it, in the same order, with
    what the run wrote after them; this holds for every tag list and
    every behaviour of the connection, also when the run ends with an
    exception. *)
Theorem extract_data_keeps_lines
    (fuel : nat) (connection : Connection) (start stop : datetime)
    (packetsize : timedelta) (average : bool) (f : string)
    (tags : list string) :
  ∀ (fs : FS) (out : list Report) (fs' : FS) (out' : list Report)
    (r : result unit) (old : list Line),
    extract_data fuel connection tags start stop packetsize average fs out
    = Some (fs', out', r) →
    fs !! f = Some old → old ≠ [] →
    ∃ more, fs' !! f = Some (old ++ more).
Proof.
  induction tags as [|tag tags IH]; intros fs out fs' out' r old Hrun Hf Hold.
  - injection Hrun as <- <- <-. exists []. by rewrite app_nil_r.
  - rewrite extract_data_cons in Hrun.
    destruct (getTag _ _ _ _ _ _ _ _ _) as [[[fs1 log] [isEmpty|e]]|] eqn:Hg;
      [| |done].
    + destruct (getTag_keeps_lines _ _ _ _ _ _ _ _ _ _ _ _ f old Hg Hf Hold)
        as [more1 Hf1].
      destruct (IH _ _ _ _ _ (old ++ more1) Hrun Hf1) as [more2 Hf2].
      { by destruct old. }
      exists (more1 ++ more2). by rewrite app_assoc.
    + injection Hrun as <- <- <-.
      by eapply getTag_keeps_lines.
Qed.

Lemma extract_data_keeps_lines_witness :
  let old := {| l_tag := "T1"; l_time := "06.04.2019 12:00:00.000";
                l_value := 1 |} in
  let row := {| r_tag := "T1"; r_time := "07.04.2019 12:00:05.000";
                r_value := 2 |} in
  let fs : FS := {[ "T1.txt"%string := [old] ]} in
  let fs' : FS :=
    {[ "T1.txt"%string := [old; line_of_row row; line_of_row row] ]} in
  let connection : Connection := λ _, Ok (recordset_of [row]) in
  let start := datetime_of 2019 4 7 12 0 0 0 in
  let stop := datetime_of 2019 4 7 12 0 20 0 in
  extract_data 2 connection ["T1"%string] start stop (timedelta_of 0 0 0 10)
    false fs []
  = Some (fs',
          [ {| rep_start := start; rep_stop := stop; rep_tag := "T1";
               rep_verdict := "Signal" |} ],
          Ok tt)
  ∧ ∃ more, fs' !! "T1.txt"%string = Some ([old] ++ more).
Proof.
  intros old row fs fs' connection start stop.
  assert (Hrun : extract_data 2 connection ["T1"%string] start stop
                   (timedelta_of 0 0 0 10) false fs []
                 = Some (fs',
                         [ {| rep_start := start; rep_stop := stop;
                              rep_tag := "T1"; rep_verdict := "Signal" |} ],
                         Ok tt))
    by (vm_compute; reflexivity).
  split; [exact Hrun |].
  refine (extract_data_keeps_lines 2 connection start stop
            (timedelta_of 0 0 0 10) false "T1.txt" ["T1"%string] fs [] fs' _
            (Ok tt) [old] Hrun eq_refl _).
  discriminate.
Defined.

(** A run touches the output files of its tags only: a file whose name is
    not the name made from one of the tags is after a run of
    [extract_data] as it was before. *)
Theorem extract_data_other_files
    (fuel : nat) (connection : Connection) (start stop : datetime)
    (packetsize : timedelta) (average : bool) (f : string)
    (tags : list string) :
  (∀ tag, tag ∈ tags → f ≠ filename_of EmptyString tag) →
  ∀ (fs : FS) (out : list Report) (fs' : FS) (out' : list Report)
    (r : result unit),
    extract_data fuel connection tags start stop packetsize average fs out
    = Some (fs', out', r) →
    fs' !! f = fs !! f.
Proof.
  induction tags as [|tag tags IH]; intros Hf fs out fs' out' r Hrun.
  - by injection Hrun as <- <- <-.
  - rewrite extract_data_cons in Hrun.
    assert (Hne : f ≠ filename_of EmptyString tag)
      by (apply Hf, list_elem_of_here).
    destruct (getTag _ _ _ _ _ _ _ _ _) as [[[fs1 log] [isEmpty|e]]|] eqn:Hg;
      [| |done].
    + destruct (getTag_content _ _ _ _ _ _ _ _ _ _ _ _ Hg) as [Hfr _].
      rewrite (IH (λ t Ht, Hf t (list_elem_of_further _ _ _ Ht))
                 _ _ _ _ _ Hrun).
      by apply Hfr.
    + injection Hrun as <- <- <-.
      destruct (getTag_content _ _ _ _ _ _ _ _ _ _ _ _ Hg) as [Hfr _].
      by apply Hfr.
Qed.

Lemma extract_data_other_files_witness :
  let line := {| l_tag := "T2"; l_time := "06.04.2019 12:00:00.000";
                 l_value := 1 |} in
  let fs : FS := {[ "T2.txt"%string := [line] ]} in
  (<["T1.txt"%string := [ {| l_tag := "T1";
                             l_time := "07.04.2019 12:01:00.000";
                             l_value := 5 |} ]]> fs) !! "T2.txt"%string
  = fs !! "T2.txt"%string.
Proof.
  intros line fs.
  refine (extract_data_other_files 1
            (λ _, Ok (recordset_of
                        [ {| r_tag := "T1";
                             r_time := "07.04.2019 12:01:00.000";
                             r_value := 5 |} ]))
            (datetime_of 2019 4 7 12 0 0 0) (datetime_of 2019 4 7 12 10 0 0)
            (timedelta_of 0 0 10 0) false "T2.txt" ["T1"%string] _ fs []
            _ _ (Ok tt) _).
  - intros tag Hin. apply list_elem_of_singleton in Hin as ->. discriminate.
  - vm_compute. reflexivity.
Defined.

(** The tags are worked off in the order of the list, each with one
    printed line that has the start and the end of the window, the tag and
    "Empty" or "Signal".  A run that ends without an exception has printed
    a line for every tag; a run that ends with an exception, which is the
    file-not-found error of the check after the loop, has printed the
    lines of the tags before the failing one and none after it. *)
Theorem extract_data_reports
    (fuel : nat) (connection : Connection) (start stop : datetime)
    (packetsize : timedelta) (average : bool) (tags : list string) :
  ∀ (fs : FS) (out : list Report) (fs' : FS) (out' : list Report)
    (r : result unit),
    extract_data fuel connection tags start stop packetsize average fs out
    = Some (fs', out', r) →
    ∃ printed,
      out' = out ++ printed
      ∧ map rep_tag printed = take (length printed) tags
      ∧ (∀ rep, rep ∈ printed →
           rep_start rep = start ∧ rep_stop rep = stop
           ∧ (rep_verdict rep = "Empty"%string
              ∨ rep_verdict rep = "Signal"%string))
      ∧ match r with
        | Ok _ => length printed = length tags
        | Raise e =>
            e = FileNotFoundError ∧ (length printed < length tags)%nat
        end.
Proof.
  induction tags as [|tag tags IH]; intros fs out fs' out' r Hrun.
  - injection Hrun as <- <- <-. exists []. rewrite app_nil_r.
    split_and!; try done. intros rep Hin. by apply elem_of_nil in Hin.
  - rewrite extract_data_cons in Hrun.
    destruct (getTag _ _ _ _ _ _ _ _ _) as [[[fs1 log] [isEmpty|e]]|] eqn:Hg;
      [| |done].
    + apply IH in Hrun as (printed & -> & Htags & Hreps & Hr).
      eexists (_ :: printed). rewrite <- app_assoc.
      split; [reflexivity |]. split_and!.
      * simpl. by rewrite Htags.
      * intros rep Hin. apply elem_of_cons in Hin as [->|Hin];
          [|by apply Hreps].
        simpl. split_and!; try done. destruct isEmpty; eauto.
      * destruct r as [?|e]; simpl; [lia |].
        destruct Hr as [-> Hlen]. split; [done | lia].
    + injection Hrun as <- <- <-. exists []. rewrite app_nil_r.
      destruct (getTag_content _ _ _ _ _ _ _ _ _ _ _ _ Hg)
        as [_ (-> & _)].
      split_and!; try done; [|simpl; lia].
      intros rep Hin. by apply elem_of_nil in Hin.
Qed.

Lemma extract_data_reports_witness :
  let row := {| r_tag := "T1"; r_time := "07.04.2019 12:00:05.000";
                r_value := 2 |} in
  let connection : Connection :=
    λ q, if String.eqb (q_tag q) "T1" then Ok (recordset_of [row])
         else if String.eqb (q_tag q) "T2" then Ok (recordset_of [])
         else Raise ProviderError in
  let start := datetime_of 2019 4 7 12 0 0 0 in
  let stop := datetime_of 2019 4 7 12 0 20 0 in
  let rep tag verdict :=
    {| rep_start := start; rep_stop := stop; rep_tag := tag;
       rep_verdict := verdict |} in
  let fs' : FS :=
    {[ "T1.txt"%string := [line_of_row row; line_of_row row] ]} in
  let tags := ["T1"; "T2"; "T3"]%string in
  extract_data 2 connection tags start stop (timedelta_of 0 0 0 10) false
    ∅ []
  = Some (fs', [rep "T1" "Signal"; rep "T2" "Empty"]%string,
          Raise FileNotFoundError)
  ∧ ∃ printed,
      [rep "T1" "Signal"; rep "T2" "Empty"]%string = [] ++ printed
      ∧ map rep_tag printed = take (length printed) tags
      ∧ (∀ r, r ∈ printed →
           rep_start r = start ∧ rep_stop r = stop
           ∧ (rep_verdict r = "Empty"%string
              ∨ rep_verdict r = "Signal"%string))
      ∧ FileNotFoundError = FileNotFoundError
        ∧ (length printed < length tags)%nat.
Proof.
  intros row connection start stop rep fs' tags.
  assert (Hrun : extract_data 2 connection tags start stop
                   (timedelta_of 0 0 0 10) false ∅ []
                 = Some (fs', [rep "T1" "Signal"; rep "T2" "Empty"]%string,
                         Raise FileNotFoundError))
    by (vm_compute; reflexivity).
  split; [exact Hrun |].
  exact (extract_data_reports 2 connection start stop (timedelta_of 0 0 0 10)
           false tags ∅ [] fs' _ (Raise FileNotFoundError) Hrun).
Defined.

(** ** The end of a run *)

Lemma getTag_terminates (fuel : nat) (connection : Connection) (fs : FS)
    (tag : string) (startTime endTime : datetime) (id : string)
    (packetsize : timedelta) (average : bool) :
  endTime <= startTime
  ∨ (0 < packetsize
     ∧ (packet_count startTime endTime packetsize <= fuel)%nat) →
  is_Some (getTag fuel connection fs tag startTime endTime id packetsize
             average).
Proof.
  intros [Hw|[Hp Hfuel]]; unfold getTag.
  - rewrite getTag_loop_exit by done. by destruct (getTag_finish _ _).
  - rewrite getTag_loop_packets by done. by destruct (getTag_finish _ _).
Qed.

Lemma extract_data_terminates (fuel : nat) (connection : Connection)
    (start stop : datetime) (packetsize : timedelta) (average : bool)
    (tags : list string) :
  stop <= start
  ∨ (0 < packetsize ∧ (packet_count start stop packetsize <= fuel)%nat) →
  ∀ fs out,
    is_Some (extract_data fuel connection tags start stop packetsize average
               fs out).
Proof.
  intros H. induction tags as [|tag tags IH]; intros fs out; [by eexists |].
  rewrite extract_data_cons.
  destruct (getTag_terminates fuel connection fs tag start stop EmptyString
              packetsize average H) as [[[fs1 log] [isEmpty|e]] ->];
    [apply IH | by eexists].
Qed.

Lemma extract_data_forever (fuel : nat) (connection : Connection)
    (start stop : datetime) (packetsize : timedelta) (average : bool)
    (tag : string) (tags : list string) (fs : FS) (out : list Report) :
  start < stop → packetsize <= 0 →
  extract_data fuel connection (tag :: tags) start stop packetsize average
    fs out = None.
Proof.
  intros Hw Hp. rewrite extract_data_cons. unfold getTag.
  by rewrite getTag_loop_forever.
Qed.

Lemma clamp_packet_size_pos (start end_ : datetime) (p : timedelta) :
  start < end_ → 0 < p → 0 < clamp_packet_size start end_ p.
Proof.
  intros Hw Hp. unfold clamp_packet_size.
  destruct (end_ - start <? p); lia.
Qed.

(** For a packet size that is not negative the main program comes to an
    end for every connection and every state of the files, unless there is
    a tag to fetch, the window is not empty and the packet size is zero:
    with a window that runs backwards it exits at once, with an empty
    window or an empty tag list it has nothing to fetch, and with a
    positive packet size the number of packets of the window is fuel
    enough for each tag. *)
Theorem main_args_terminates_iff
    (connection : Connection) (tags : list string) (args : Args) (fs : FS)
    (start end_ : datetime) (p : timedelta) :
  resolve_window (subparser args) = Ok (start, end_) →
  psize args = Some p → 0 <= p →
  ((∃ fuel, is_Some (main_args fuel connection tags args fs))
   ↔ end_ <= start ∨ tags = [] ∨ 0 < p)
  ∧ (0 < p →
     is_Some (main_args
                (packet_count start end_ (clamp_packet_size start end_ p))
                connection tags args fs)).
Proof.
  intros Hres Hps Hp.
  assert (Hpos : 0 < p →
    is_Some (main_args
               (packet_count start end_ (clamp_packet_size start end_ p))
               connection tags args fs)).
  { intros Hp'. unfold main_args. rewrite Hres, Hps.
    destruct (end_ <? start) eqn:Hlt; [by eexists |].
    apply Z.ltb_ge in Hlt. apply extract_data_terminates.
    destruct (Z.eq_dec start end_) as [->|Hne]; [left; lia |].
    right. split; [apply clamp_packet_size_pos; lia | lia]. }
  split; [|done]. split.
  - intros [fuel Hsome].
    destruct (Z.le_gt_cases end_ start) as [|Hw]; [by left |].
    destruct tags as [|tag tags]; [by right; left |].
    right; right. destruct (Z.lt_ge_cases 0 p) as [|Hle]; [done |].
    unfold main_args in Hsome. rewrite Hres, Hps in Hsome.
    assert ((end_ <? start) = false) as Hlt by (apply Z.ltb_ge; lia).
    rewrite Hlt in Hsome.
    rewrite extract_data_forever in Hsome; [by destruct Hsome | done |].
    pose proof (clamp_packet_size_le start end_ p). lia.
  - intros [Hw|[->|Hp']].
    + exists 0%nat. unfold main_args. rewrite Hres, Hps.
      destruct (end_ <? start); [by eexists |].
      apply extract_data_terminates. by left.
    + exists 0%nat. unfold main_args. rewrite Hres, Hps.
      destruct (end_ <? start); by eexists.
    + eexists. by apply Hpos.
Qed.

Lemma main_args_terminates_iff_witness :
  is_Some
    (main_args
       (packet_count (datetime_of 2019 4 7 12 0 0 0)
          (datetime_of 2019 4 7 12 0 25 0)
          (clamp_packet_size (datetime_of 2019 4 7 12 0 0 0)
             (datetime_of 2019 4 7 12 0 25 0) (timedelta_of 0 0 0 10)))
       (λ _, Ok (recordset_of [])) ["T1"; "T2"]%string
       {| subparser := se (datetime_of 2019 4 7 12 0 0 0)
                          (datetime_of 2019 4 7 12 0 25 0);
          psize := Some (timedelta_of 0 0 0 10); pave := true |} ∅).
Proof.
  refine (proj2 (main_args_terminates_iff (λ _, Ok (recordset_of []))
                   ["T1"; "T2"]%string
                   {| subparser := se (datetime_of 2019 4 7 12 0 0 0)
                                      (datetime_of 2019 4 7 12 0 25 0);
                      psize := Some (timedelta_of 0 0 0 10); pave := true |}
                   ∅ _ _ _ eq_refl eq_refl _) _);
    [discriminate | reflexivity].
Defined.

(** ** The export without averaging *)

(** Without averaging, an iteration whose query returns rows adds one line
    for each row to the output file, in the order of the rows and after
    what the file held, each line with the tag, the time text and the
    value of its row; no other file changes. *)
Theorem export_packet_rows
    (connection : Connection) (tag filename : string) (delta : timedelta)
    (d : datetime) (fs : FS) (rows : list Row) :
  connection {| q_tag := tag; q_start := strftime d;
                q_end := strftime (d + delta) |} = Ok (recordset_of rows) →
  rows ≠ [] →
  loop_body connection tag filename delta false d fs
  = (d + delta,
     <[filename := default [] (fs !! filename) ++ map line_of_row rows]> fs,
     packet_at tag d delta 0).
Proof.
  intros Hq Hne.
  pose proof (loop_body_packet connection tag filename delta false d fs)
    as Hp.
  unfold loop_body in *. simpl in Hp. rewrite <- Hp. f_equal. f_equal.
  unfold try_block, adodb_query. rewrite Hq.
  destruct (recordset_of_rows rows Hne) as (Hb & He & Hr).
  unfold export. rewrite Hb, He, Hr. simpl.
  apply map_eq. intros f. rewrite write_lines_lookup.
  destruct (decide (f = filename)) as [->|Hf].
  - rewrite lookup_insert_eq, open_file_default. by destruct rows.
  - rewrite lookup_insert_ne by done.
    rewrite open_file_lookup. by rewrite decide_False.
Qed.

Lemma export_packet_rows_witness :
  let rows := [ {| r_tag := "T1"; r_time := "07.04.2019 12:01:00.000";
                   r_value := 1 |};
                {| r_tag := "T1"; r_time := "07.04.2019 12:02:00.000";
                   r_value := 2 |} ] in
  loop_body (λ _, Ok (recordset_of rows)) "T1" "T1.txt"
    (timedelta_of 0 0 10 0) false (datetime_of 2019 4 7 12 0 0 0) ∅
  = (datetime_of 2019 4 7 12 0 0 0 + timedelta_of 0 0 10 0,
     <["T1.txt"%string := map line_of_row rows]> ∅,
     packet_at "T1" (datetime_of 2019 4 7 12 0 0 0) (timedelta_of 0 0 10 0) 0).
Proof.
  intros rows.
  refine (export_packet_rows (λ _, Ok (recordset_of rows)) "T1" "T1.txt"
            (timedelta_of 0 0 10 0) (datetime_of 2019 4 7 12 0 0 0) ∅ rows
            eq_refl _).
  discriminate.
Defined.

(** ** The name of the output file *)

Lemma append_inj_r (x y s : string) :
  (x +:+ s)%string = (y +:+ s)%string → x = y.
Proof.
  revert y. induction x as [|a x IH]; intros [|b y]; simpl; intros H.
  - done.
  - apply (f_equal String.length) in H. simpl in H.
    rewrite append_length in H. lia.
  - apply (f_equal String.length) in H. simpl in H.
    rewrite append_length in H. lia.
  - injection H as -> H. by rewrite (IH _ H).
Qed.

Lemma replace_char_no_slash (s : string) :
  no_slash (replace_char "/" "_" s) = true.
Proof.
  induction s as [|c s IH]; simpl; [done |]. rewrite IH.
  by destruct (Ascii.eqb_spec c "/") as [->|Hne]; simpl;
    [| apply Ascii.eqb_neq in Hne; rewrite Hne].
Qed.

Lemma replace_char_idempotent (s : string) :
  replace_char "/" "_" (replace_char "/" "_" s) = replace_char "/" "_" s.
Proof.
  induction s as [|c s IH]; simpl; [done |]. rewrite IH.
  by destruct (Ascii.eqb_spec c "/") as [->|Hne]; simpl;
    [| apply Ascii.eqb_neq in Hne; rewrite Hne].
Qed.

(** Two tags of a run have the same output file exactly when they are
    equal after every slash is replaced by an underscore; so a tag with a
    slash shares its file with the tag that has underscores in the places
    of the slashes.  The part of the file name that comes from the tag has
    no slash. *)
Theorem filename_of_shared (id tag1 tag2 : string) :
  (filename_of id tag1 = filename_of id tag2
   ↔ replace_char "/" "_" tag1 = replace_char "/" "_" tag2)
  ∧ filename_of id (replace_char "/" "_" tag1) = filename_of id tag1
  ∧ no_slash (replace_char "/" "_" tag1) = true.
Proof.
  unfold filename_of. split_and!.
  - split; [|by intros ->].
    intros H. apply String.app_inj in H. by apply append_inj_r in H.
  - by rewrite replace_char_idempotent.
  - apply replace_char_no_slash.
Qed.

(** ** The clamp and the packets *)

(** For a window that is not empty and a positive packet size asked for,
    the packet size that the main program hands on is the smaller one of
    the packet size asked for and the length of the window, and it is
    positive; the first packet then ends inside the window, and no packet
    of the loop ends a whole window length or more after the end. *)
Theorem clamp_bounds_packets
    (tag : string) (startTime endTime : datetime) (requested : timedelta) :
  startTime < endTime → 0 < requested →
  let packet_size := clamp_packet_size startTime endTime requested in
  packet_size = Z.min requested (endTime - startTime)
  ∧ 0 < packet_size
  ∧ startTime + packet_size <= endTime
  ∧ ∀ p, p ∈ packets tag startTime packet_size
                 (packet_count startTime endTime packet_size) →
         startTime <= p_lo p < endTime
         ∧ p_hi p < endTime + (endTime - startTime).
Proof.
  intros Hw Hr packet_size.
  assert (Hmin : packet_size = Z.min requested (endTime - startTime)).
  { unfold packet_size, clamp_packet_size.
    destruct (endTime - startTime <? requested) eqn:E;
      [apply Z.ltb_lt in E | apply Z.ltb_ge in E]; lia. }
  assert (Hpos : 0 < packet_size) by lia.
  split_and!; [done | done | lia |].
  intros p Hp. apply list_elem_of_lookup in Hp as [k Hk].
  apply packets_lookup in Hk as [Hk ->]. simpl.
  destruct (packet_count_guard startTime endTime packet_size Hpos)
    as [Hg _].
  specialize (Hg k Hk). nia.
Qed.

Lemma clamp_bounds_packets_witness :
  datetime_of 2019 4 7 12 0 0 0 < datetime_of 2019 4 7 12 5 0 0
  ∧ 0 < timedelta_of 1 0 0 0
  ∧ clamp_packet_size (datetime_of 2019 4 7 12 0 0 0)
      (datetime_of 2019 4 7 12 5 0 0) (timedelta_of 1 0 0 0)
    = Z.min (timedelta_of 1 0 0 0)
        (datetime_of 2019 4 7 12 5 0 0 - datetime_of 2019 4 7 12 0 0 0).
Proof.
  split; [reflexivity |]. split; [reflexivity |].
  exact (proj1 (clamp_bounds_packets "T1" (datetime_of 2019 4 7 12 0 0 0)
                  (datetime_of 2019 4 7 12 5 0 0) (timedelta_of 1 0 0 0)
                  eq_refl eq_refl)).
Defined.

(** The sub-command ew with no option: the window is the day that ends at
    the end given, the packet size is one day, and the loop of [getTag]
    makes the one packet of that day. *)
Theorem default_run_one_day
    (connection : Connection) (e : datetime) (average : bool) :
  (∀ fuel tags fs,
      main fuel connection tags
        {| cl_window := ew e None; cl_psize := None; cl_pave := average |} fs
      = extract_data fuel connection tags (e - timedelta_of 1 0 0 0) e
          (timedelta_of 1 0 0 0) average fs [])
  ∧ (∀ (fuel : nat) tag filename fs, (1 <= fuel)%nat →
       ∃ fs',
         getTag_loop connection tag filename e (timedelta_of 1 0 0 0)
           average fuel (e - timedelta_of 1 0 0 0) fs []
         = Some (fs',
                 [ {| p_lo := e - timedelta_of 1 0 0 0; p_hi := e;
                      p_query :=
                        {| q_tag := tag;
                           q_start := strftime (e - timedelta_of 1 0 0 0);
                           q_end := strftime e |} |} ])).
Proof.
  split.
  - intros fuel tags fs. unfold main, get_cli_args, main_args. simpl.
    assert ((e <? e - timedelta_of 1 0 0 0) = false) as ->
      by (apply Z.ltb_ge; unfold timedelta_of; lia).
    unfold clamp_packet_size.
    assert ((e - (e - timedelta_of 1 0 0 0) <? timedelta_of 1 0 0 0) = false)
      as -> by (apply Z.ltb_ge; lia).
    reflexivity.
  - intros fuel tag filename fs Hfuel.
    assert (Hn : packet_count (e - timedelta_of 1 0 0 0) e
                   (timedelta_of 1 0 0 0) = 1%nat).
    { replace (timedelta_of 1 0 0 0)
        with (e - (e - timedelta_of 1 0 0 0)) at 2 by lia.
      apply packet_count_one. unfold timedelta_of. lia. }
    rewrite getTag_loop_packets; rewrite ?Hn; [| done | done].
    eexists. f_equal. f_equal. unfold packets, packet_at. simpl map.
    replace (e - timedelta_of 1 0 0 0 + Z.of_nat 0 * timedelta_of 1 0 0 0)
      with (e - timedelta_of 1 0 0 0) by lia.
    replace (e - timedelta_of 1 0 0 0 + timedelta_of 1 0 0 0) with e by lia.
    reflexivity.
Qed.



Lemma default_run_one_day_witness :
  (1 <= 1)%nat
  ∧ ∃ fs',
      getTag_loop (λ _, Raise ProviderError) "T1" "T1.txt"
        (datetime_of 2019 4 7 12 0 0 0) (timedelta_of 1 0 0 0) false 1
        (datetime_of 2019 4 7 12 0 0 0 - timedelta_of 1 0 0 0) ∅ []
      = Some (fs',
              [ {| p_lo := datetime_of 2019 4 7 12 0 0 0
                           - timedelta_of 1 0 0 0;
                   p_hi := datetime_of 2019 4 7 12 0 0 0;
                   p_query :=
                     {| q_tag := "T1";
                        q_start := strftime (datetime_of 2019 4 7 12 0 0 0
                                             - timedelta_of 1 0 0 0);
                        q_end := strftime (datetime_of 2019 4 7 12 0 0 0) |}
                |} ]).
Proof.
  split; [apply le_n |].
  exact (proj2 (default_run_one_day (λ _, Raise ProviderError)
                  (datetime_of 2019 4 7 12 0 0 0) false)
           1%nat "T1"%string "T1.txt"%string ∅ (le_n 1)).
Defined.

(** ** The tag list *)

Lemma isspace_LF : isspace LF = true.
Proof. reflexivity. Qed.

Lemma rstrip_cons (c : ascii) (s : string) :
  isspace c = false → rstrip (String c s) = String c (rstrip s).
Proof. intros Hc. simpl. rewrite Hc. by destruct (rstrip s). Qed.

Lemma rstrip_idempotent (s : string) : rstrip (rstrip s) = rstrip s.
Proof.
  induction s as [|c s IH]; [done |]. simpl.
  destruct (rstrip s) as [|b r] eqn:Hr.
  - destruct (isspace c) eqn:Hc; [done |]. simpl. by rewrite Hc.
  - change (rstrip (String c (String b r))
            = String c (String b r)).
    simpl. simpl in IH. by rewrite IH.
Qed.

Lemma lstrip_head (s : string) (c : ascii) (r : string) :
  lstrip s = String c r → isspace c = false.
Proof.
  induction s as [|a s IH]; simpl; [done |].
  destruct (isspace a) eqn:Ha; [done |]. by intros [= <- <-].
Qed.

Lemma lstrip_strip (s : string) : lstrip (strip s) = strip s.
Proof.
  unfold strip. destruct (lstrip s) as [|c r] eqn:Hs; [done |].
  pose proof (lstrip_head _ _ _ Hs) as Hc.
  rewrite rstrip_cons by done. simpl. by rewrite Hc.
Qed.

Lemma strip_idempotent (s : string) : strip (strip s) = strip s.
Proof.
  unfold strip at 1. rewrite lstrip_strip. unfold strip.
  apply rstrip_idempotent.
Qed.

Lemma rstrip_app_space (s : string) (c : ascii) :
  isspace c = true → rstrip (s +:+ String c EmptyString) = rstrip s.
Proof.
  intros Hc. induction s as [|a s IH]; simpl; [by rewrite Hc |].
  by rewrite IH.
Qed.

Lemma lstrip_app_space (s : string) (c : ascii) :
  isspace c = true →
  lstrip (s +:+ String c EmptyString)
  = match lstrip s with
    | EmptyString => EmptyString
    | r => (r +:+ String c EmptyString)%string
    end.
Proof.
  intros Hc. induction s as [|a s IH]; simpl; [by rewrite Hc |].
  destruct (isspace a); [done | done].
Qed.

Lemma strip_app_space (s : string) (c : ascii) :
  isspace c = true → strip (s +:+ String c EmptyString) = strip s.
Proof.
  intros Hc. unfold strip. rewrite lstrip_app_space by done.
  destruct (lstrip s) as [|a r]; [done |].
  by rewrite rstrip_app_space.
Qed.

Lemma no_line_break_lstrip (s : string) :
  no_line_break s = true → no_line_break (lstrip s) = true.
Proof.
  induction s as [|c s IH]; simpl; [done |]. intros H.
  destruct (isspace c); [|done].
  apply andb_true_iff in H as [_ H]. by apply IH.
Qed.

Lemma no_line_break_rstrip (s : string) :
  no_line_break s = true → no_line_break (rstrip s) = true.
Proof.
  induction s as [|c s IH]; simpl; [done |]. intros H.
  apply andb_true_iff in H as [Hc H]. specialize (IH H).
  destruct (rstrip s) as [|b r].
  - destruct (isspace c); [done |]. simpl. by rewrite Hc.
  - simpl. simpl in IH. by rewrite Hc, IH.
Qed.

Lemma no_line_break_strip (s : string) :
  no_line_break s = true → no_line_break (strip s) = true.
Proof.
  intros H. by apply no_line_break_rstrip, no_line_break_lstrip.
Qed.

Lemma no_line_break_app (s : string) (c : ascii) :
  no_line_break s = true → Ascii.eqb c LF = false → Ascii.eqb c CR = false →
  no_line_break (s +:+ String c EmptyString) = true.
Proof.
  intros Hs H1 H2. induction s as [|a s IH]; simpl in *.
  - by rewrite H1, H2.
  - apply andb_true_iff in Hs as [Ha Hs]. by rewrite Ha, IH.
Qed.

(** Reading in text mode leaves no carriage return. *)
Lemma universal_newlines_no_cr (s : string) :
  no_cr (universal_newlines s) = true.
Proof.
  assert (H : no_cr (universal_newlines s) = true
              ∧ ∀ c, no_cr (universal_newlines (String c s)) = true);
    [|by destruct H].
  induction s as [|a s [IH1 IH2]].
  - split; [done |]. intros c. simpl.
    by destruct (Ascii.eqb c CR) eqn:Hc; simpl; [| rewrite Hc].
  - split; [apply IH2 |]. intros c.
    change (universal_newlines (String c (String a s)))
      with (if Ascii.eqb c CR
            then if Ascii.eqb a LF then String LF (universal_newlines s)
                 else String LF (universal_newlines (String a s))
            else String c (universal_newlines (String a s))).
    destruct (Ascii.eqb c CR) eqn:Hc.
    + destruct (Ascii.eqb a LF);
        [change (no_cr (universal_newlines s) = true)
        | change (no_cr (universal_newlines (String a s)) = true)]; auto.
    + change (negb (Ascii.eqb c CR)
              && no_cr (universal_newlines (String a s)) = true).
      by rewrite Hc, IH2.
Qed.

Lemma universal_newlines_id (s : string) :
  no_cr s = true → universal_newlines s = s.
Proof.
  induction s as [|c s IH]; [done |]. intros H.
  apply andb_true_iff in H as [Hc H].
  apply negb_true_iff in Hc.
  change (universal_newlines (String c s))
    with (if Ascii.eqb c CR
          then match s with
               | String c' s'' =>
                   if Ascii.eqb c' LF then String LF (universal_newlines s'')
                   else String LF (universal_newlines s)
               | EmptyString => String LF EmptyString
               end
          else String c (universal_newlines s)).
  by rewrite Hc, IH.
Qed.

Lemma split_lines_bodies (s : string) :
  no_cr s = true →
  ∀ cur, no_line_break cur = true →
  ∀ line, line ∈ split_lines s cur → ∃ body, line_body line body.
Proof.
  induction s as [|c s IH]; intros Hs cur Hcur line Hin; simpl in *.
  - destruct cur as [|a cur]; [by apply elem_of_nil in Hin |].
    apply list_elem_of_singleton in Hin as ->.
    exists (String a cur). split; [done | by left].
  - apply andb_true_iff in Hs as [Hc Hs]. apply negb_true_iff in Hc.
    destruct (Ascii.eqb c LF) eqn:Hlf.
    + apply elem_of_cons in Hin as [->|Hin].
      * exists cur. split; [done | by right].
      * by apply (IH Hs EmptyString).
    + apply (IH Hs (cur +:+ String c EmptyString)%string); [|done].
      by apply no_line_break_app.
Qed.

Lemma strip_line_body (line body : string) :
  line_body line body → strip line = strip body.
Proof.
  intros [_ [->| ->]]; [done |]. apply strip_app_space, isspace_LF.
Qed.

(** Every tag that [get_tags] reads from the tag list is clean: it is not
    empty, it has no white space at its start or at its end, and it has no
    line break in it.  Lines that are empty or hold white space only give
    no tag. *)
Theorem get_tags_clean (content : string) (tags : list string) :
  get_tags (Some content) = Ok tags →
  ∀ t, t ∈ tags → clean_tag t.
Proof.
  intros [= <-] t Hin.
  apply list_elem_of_In, in_map_iff in Hin as (line & <- & Hin).
  apply filter_In in Hin as [Hin Hlen].
  apply list_elem_of_In in Hin.
  destruct (split_lines_bodies _ (universal_newlines_no_cr content)
              EmptyString eq_refl line Hin) as [body Hbody].
  split_and!.
  - intros Hnil. by rewrite Hnil in Hlen.
  - apply strip_idempotent.
  - rewrite (strip_line_body _ _ Hbody).
    apply no_line_break_strip. by destruct Hbody.
Qed.

Lemma get_tags_clean_witness :
  clean_tag "A/B.C".
Proof.
  refine (get_tags_clean
            (" A/B.C " +:+ String CR (String LF (String LF "  T2")))
            ["A/B.C"; "T2"]%string eq_refl "A/B.C" _).
  apply list_elem_of_here.
Defined.

Lemma no_line_break_no_cr (s : string) :
  no_line_break s = true → no_cr s = true.
Proof.
  induction s as [|c s IH]; simpl; [done |]. intros H.
  apply andb_true_iff in H as [Hc H]. apply andb_true_iff in Hc as [_ Hc].
  by rewrite Hc, IH.
Qed.

Lemma one_per_line_no_cr (tags : list string) :
  Forall clean_tag tags → no_cr (one_per_line tags) = true.
Proof.
  induction 1 as [|t tags (_ & _ & Ht) _ IH]; [done |]. simpl.
  apply no_line_break_no_cr in Ht. clear -Ht IH.
  induction t as [|c t IHt]; simpl in *; [done |].
  apply andb_true_iff in Ht as [Hc Ht]. by rewrite Hc, IHt.
Qed.

Lemma split_lines_line (t rest : string) :
  no_line_break t = true →
  ∀ cur,
    split_lines (t +:+ String LF rest) cur
    = (cur +:+ t +:+ String LF EmptyString)%string
      :: split_lines rest EmptyString.
Proof.
  induction t as [|c t IH]; intros Ht cur; simpl in *.
  - reflexivity.
  - apply andb_true_iff in Ht as [Hc Ht]. apply andb_true_iff in Hc as [Hc _].
    apply negb_true_iff in Hc. rewrite Hc, IH by done.
    by rewrite append_assoc.
Qed.

Lemma split_lines_one_per_line (tags : list string) :
  Forall clean_tag tags →
  split_lines (one_per_line tags) EmptyString
  = map (λ t, (t +:+ String LF EmptyString)%string) tags.
Proof.
  induction 1 as [|t tags (_ & _ & Ht) _ IH]; [done |]. simpl.
  by rewrite split_lines_line, IH.
Qed.

(** A tag list written with one clean tag on each line is read back as it
    was written: [get_tags] returns these tags, all of them and in their
    order. *)
Theorem get_tags_one_per_line (tags : list string) :
  Forall clean_tag tags →
  get_tags (Some (one_per_line tags)) = Ok tags.
Proof.
  intros Hclean. unfold get_tags, readlines.
  rewrite universal_newlines_id by (by apply one_per_line_no_cr).
  rewrite split_lines_one_per_line by done. f_equal.
  induction Hclean as [|t tags (Hne & Hstrip & Ht) _ IH]; [done |].
  cbn [map List.filter].
  rewrite (strip_app_space t LF isspace_LF), Hstrip.
  destruct t as [|c t]; [done |]. cbn [String.length Nat.eqb negb map].
  by rewrite (strip_app_space (String c t) LF isspace_LF), Hstrip, IH.
Qed.

Lemma get_tags_one_per_line_witness :
  get_tags (Some (one_per_line ["A/B.C"; "T 2"]%string))
  = Ok ["A/B.C"; "T 2"]%string.
Proof.
  apply get_tags_one_per_line.
  repeat constructor; (discriminate || reflexivity).
Defined.

Lemma lstrip_all_space (s : string) :
  all_space s = true → lstrip s = EmptyString.
Proof.
  induction s as [|c s IH]; simpl; [done |]. intros H.
  apply andb_true_iff in H as [Hc H]. by rewrite Hc, IH.
Qed.

Lemma all_space_app (s : string) (c : ascii) :
  all_space s = true → isspace c = true →
  all_space (s +:+ String c EmptyString) = true.
Proof.
  intros Hs Hc. induction s as [|a s IH]; simpl in *; [by rewrite Hc |].
  apply andb_true_iff in Hs as [Ha Hs]. by rewrite Ha, IH.
Qed.

Lemma universal_newlines_all_space (s : string) :
  all_space s = true → all_space (universal_newlines s) = true.
Proof.
  assert (H : (all_space s = true → all_space (universal_newlines s) = true)
              ∧ ∀ c, all_space (String c s) = true →
                     all_space (universal_newlines (String c s)) = true);
    [|by destruct H].
  induction s as [|a s [IH1 IH2]].
  - split; [done |]. intros c. simpl.
    destruct (Ascii.eqb c CR); [done | auto].
  - split; [apply IH2 |]. intros c Hc.
    change (universal_newlines (String c (String a s)))
      with (if Ascii.eqb c CR
            then if Ascii.eqb a LF then String LF (universal_newlines s)
                 else String LF (universal_newlines (String a s))
            else String c (universal_newlines (String a s))).
    change (isspace c && all_space (String a s) = true) in Hc.
    apply andb_true_iff in Hc as [Hc Has].
    pose proof Has as Has'.
    change (isspace a && all_space s = true) in Has'.
    apply andb_true_iff in Has' as [_ Hs].
    destruct (Ascii.eqb c CR).
    + destruct (Ascii.eqb a LF).
      * change (isspace LF && all_space (universal_newlines s) = true).
        by rewrite IH1.
      * change (isspace LF
                && all_space (universal_newlines (String a s)) = true).
        by rewrite IH2.
    + change (isspace c
              && all_space (universal_newlines (String a s)) = true).
      by rewrite Hc, IH2.
Qed.

Lemma split_lines_all_space (s : string) :
  all_space s = true →
  ∀ cur, all_space cur = true →
  ∀ line, line ∈ split_lines s cur → all_space line = true.
Proof.
  induction s as [|c s IH]; intros Hs cur Hcur line Hin; simpl in *.
  - destruct cur as [|a cur]; [by apply elem_of_nil in Hin |].
    by apply list_elem_of_singleton in Hin as ->.
  - apply andb_true_iff in Hs as [Hc Hs].
    destruct (Ascii.eqb c LF).
    + apply elem_of_cons in Hin as [->|Hin].
      * by apply all_space_app.
      * by apply (IH Hs EmptyString).
    + apply (IH Hs (cur +:+ String c EmptyString)%string); [|done].
      by apply all_space_app.
Qed.

Lemma filter_none {A : Type} (f : A → bool) (l : list A) :
  (∀ x, x ∈ l → f x = false) → List.filter f l = [].
Proof.
  induction l as [|x l IH]; intros H; [done |]. simpl.
  rewrite (H x (list_elem_of_here _ _)). apply IH.
  intros y Hy. by apply H, list_elem_of_further.
Qed.

Lemma get_tags_all_space (content : string) :
  all_space content = true → get_tags (Some content) = Ok [].
Proof.
  intros Hc. unfold get_tags, readlines.
  rewrite filter_none; [done |]. intros line Hin.
  unfold strip. rewrite lstrip_all_space; [done |].
  by apply (split_lines_all_space _ (universal_newlines_all_space _ Hc)
              EmptyString eq_refl).
Qed.

(** [extract_data] reads the tag list before it does anything: without
    the file tag.list it raises the file-not-found error, and with a tag
    list of empty lines and white space only it ends at once without an
    error; in both cases the connection is not called (the trace of its
    calls is after the run what it was before), no line is printed and the
    files are as they were, whatever the window and the packet size are,
    the packet size zero included.  For every tag list the run with the
    trace does to the files, prints and returns what the run without it
    does. *)
Theorem extract_data_tag_list_nothing
    (fuel : nat) (connection : Connection) (start stop : datetime)
    (packetsize : timedelta) (average : bool) (fs : FS) :
  extract_data_tag_list fuel connection None start stop packetsize average fs
  = Some (fs, [], Raise FileNotFoundError)
  ∧ (∀ content,
        all_space content = true →
        extract_data_tag_list fuel connection (Some content) start stop
          packetsize average fs
        = Some (fs, [], Ok tt))
  ∧ (∀ trace,
        extract_data_tag_list_traced fuel connection trace None start stop
          packetsize average fs
        = Some (trace, fs, [], Raise FileNotFoundError))
  ∧ (∀ trace content,
        all_space content = true →
        extract_data_tag_list_traced fuel connection trace (Some content)
          start stop packetsize average fs
        = Some (trace, fs, [], Ok tt))
  ∧ (∀ trace tag_list,
        untraced (extract_data_tag_list_traced fuel connection trace
                    tag_list start stop packetsize average fs)
        = extract_data_tag_list fuel connection tag_list start stop
            packetsize average fs).
Proof.
  split_and!.
  - reflexivity.
  - intros content Hc.
    unfold extract_data_tag_list. by rewrite get_tags_all_space.
  - reflexivity.
  - intros trace content Hc.
    unfold extract_data_tag_list_traced. by rewrite get_tags_all_space.
  - intros trace tag_list.
    unfold extract_data_tag_list_traced, extract_data_tag_list.
    destruct (get_tags tag_list) as [tags|e]; [|done].
    apply extract_data_traced_untraced.
Qed.

Lemma extract_data_tag_list_nothing_witness :
  extract_data_tag_list_traced 0 (λ _, Raise ProviderError) []
    (Some (String LF (" " +:+ String CR (String LF "  "))))
    (datetime_of 2019 4 7 12 0 0 0) (datetime_of 2019 4 7 12 0 25 0) 0 false ∅
  = Some ([], ∅, [], Ok tt).
Proof.
  exact (proj1 (proj2 (proj2 (proj2
           (extract_data_tag_list_nothing 0 (λ _, Raise ProviderError)
              (datetime_of 2019 4 7 12 0 0 0)
              (datetime_of 2019 4 7 12 0 25 0) 0 false ∅)))) []
           (String LF (" " +:+ String CR (String LF "  "))) eq_refl).
Defined.

(** ** The size of an averaged file *)

Lemma packet_lines_average_length (connection : Connection)
    (delta : timedelta) (log : list Packet) :
  (length (concat (map (packet_lines connection delta true) log))
   <= length log)%nat.
Proof.
  induction log as [|p log IH]; [done |]. simpl. rewrite length_app.
  assert ((length (packet_lines connection delta true p) <= 1)%nat).
  { unfold packet_lines. destruct (connection (p_query p)) as [rs|e];
      [|simpl; lia].
    destruct (negb (BOF rs || EOF rs)); [|simpl; lia].
    destruct (last (GetRows rs)); simpl; lia. }
  lia.
Qed.

Lemma getTag_log_length (fuel : nat) (connection : Connection) (fs : FS)
    (tag : string) (startTime endTime : datetime) (id : string)
    (packetsize : timedelta) (average : bool) (fs' : FS)
    (log : list Packet) (r : result bool) :
  getTag fuel connection fs tag startTime endTime id packetsize average
  = Some (fs', log, r) →
  0 < packetsize →
  log = packets tag startTime packetsize
          (packet_count startTime endTime packetsize).
Proof.
  intros Hg Hp. unfold getTag in Hg.
  destruct (Nat.lt_ge_cases fuel (packet_count startTime endTime packetsize))
    as [Hlt|Hge].
  - by rewrite getTag_loop_short in Hg.
  - rewrite getTag_loop_packets in Hg by done.
    destruct (getTag_finish _ _). by injection Hg as <- <- <-.
Qed.

(** In averaging mode a call of [getTag] adds at most one line for each
    packet to the output file: the file that is left has at most the
    lines it had before and one more for each of the
    ceil((end - start)/packetSize) packets of the window, however many
    rows the queries return. *)
Theorem getTag_average_line_bound
    (fuel : nat) (connection : Connection) (fs : FS) (tag : string)
    (startTime endTime : datetime) (id : string) (packetsize : timedelta)
    (fs' : FS) (log : list Packet) (r : result bool)
    (content : list Line) :
  getTag fuel connection fs tag startTime endTime id packetsize true
  = Some (fs', log, r) →
  0 < packetsize →
  fs' !! filename_of id tag = Some content →
  (length content
   <= length (default [] (fs !! filename_of id tag))
      + packet_count startTime endTime packetsize)%nat.
Proof.
  intros Hg Hp Hc.
  pose proof (getTag_log_length _ _ _ _ _ _ _ _ _ _ _ _ Hg Hp) as Hlog.
  destruct (getTag_content _ _ _ _ _ _ _ _ _ _ _ _ Hg) as [_ Hr].
  pose proof (packet_lines_average_length connection packetsize log) as Hlen.
  assert (Hl : length log = packet_count startTime endTime packetsize).
  { rewrite Hlog. unfold packets. by rewrite length_map, length_seq. }
  destruct r as [[|]|e].
  - destruct Hr as [_ Hnone]. congruence.
  - destruct Hr as [_ Hsome]. rewrite Hsome in Hc. injection Hc as <-.
    rewrite length_app. lia.
  - destruct Hr as (_ & Hnone & _ & -> & _). congruence.
Qed.

Lemma getTag_average_line_bound_witness :
  let rows := [ {| r_tag := "T1"; r_time := "07.04.2019 12:00:01.000";
                   r_value := 1 |};
                {| r_tag := "T1"; r_time := "07.04.2019 12:00:02.000";
                   r_value := 2 |};
                {| r_tag := "T1"; r_time := "07.04.2019 12:00:03.000";
                   r_value := 3 |} ] in
  let line t := {| l_tag := "T1"; l_time := t; l_value := 2 |} in
  (length [ line "07.04.2019  12:00:05"%string;
            line "07.04.2019  12:00:15"%string;
            line "07.04.2019  12:00:25"%string ]
   <= length (default [] ((∅ : FS) !! filename_of "" "T1"))
      + packet_count (datetime_of 2019 4 7 12 0 0 0)
          (datetime_of 2019 4 7 12 0 25 0) (timedelta_of 0 0 0 10))%nat.
Proof.
  intros rows line.
  refine (getTag_average_line_bound 3 (λ _, Ok (recordset_of rows)) ∅ "T1"
            (datetime_of 2019 4 7 12 0 0 0) (datetime_of 2019 4 7 12 0 25 0)
            "" (timedelta_of 0 0 0 10) _ _ (Ok false) _ _ _ _).
  - vm_compute. reflexivity.
  - reflexivity.
  - vm_compute. reflexivity.
Defined.
